(** * Fund valuation service (app.py): a shallow embedding and its properties

    The program is a small Flask application.  Its values are the dynamically
    typed values of Python (JSON documents, dictionaries with optional keys,
    binary64 floats), its failures are exceptions, and its effects are HTTP
    requests to two quote providers, reads of the local clock and reads and
    writes of the holdings file.  The embedding keeps all three: a type of
    Python values, a result type with the exceptions the code can meet, and a
    state monad over the request log and the holdings file, whose reads and
    writes can fail as those of a real file do.  Numbers are the
    kernel's binary64 floats, so sums, differences and products round as they
    do in Python.  The request headers and the HTML index route carry no
    logic and are left out. *)

From Stdlib Require Import ZArith String Ascii Floats Bool.
From stdpp Require Import base option list gmap strings.

Set Warnings "-register-all".
Open Scope Z_scope.

(** ** Python values *)

(** The values the program handles: [None], booleans, integers of any size,
    binary64 floats (the kernel's primitive floats), strings, lists and
    dictionaries with string keys (all dictionaries here are JSON objects or
    literals with string keys). *)
Inductive pyval : Type :=
| VNone
| VBool (b : bool)
| VInt (z : Z)
| VFloat (f : float)
| VStr (s : string)
| VList (l : list pyval)
| VDict (d : gmap string pyval).

(** The exception classes that occur in the program and in the builtins it
    calls. *)
Inductive exn : Type :=
| RequestException   (* requests.RequestException: connection errors, timeouts *)
| ValueError
| JSONDecodeError    (* a subclass of ValueError *)
| UnicodeDecodeError (* a subclass of ValueError *)
| IndexError
| KeyError
| TypeError
| AttributeError
| OverflowError
| ZeroDivisionError
| OSError            (* files that cannot be opened, read or written *)
| UnicodeEncodeError (* a subclass of ValueError *)
| RecursionError.    (* a subclass of RuntimeError *)

Definition exn_eqb (a b : exn) : bool :=
  match a, b with
  | RequestException, RequestException | ValueError, ValueError
  | JSONDecodeError, JSONDecodeError | UnicodeDecodeError, UnicodeDecodeError
  | IndexError, IndexError | KeyError, KeyError | TypeError, TypeError
  | AttributeError, AttributeError | OverflowError, OverflowError
  | ZeroDivisionError, ZeroDivisionError | OSError, OSError
  | UnicodeEncodeError, UnicodeEncodeError | RecursionError, RecursionError => true
  | _, _ => false
  end.

(** [isinstance e cls]: an exception of class [e] is caught by
    [except cls]. *)
Definition isinstance (e cls : exn) : bool :=
  exn_eqb e cls ||
  match e, cls with
  | JSONDecodeError, ValueError | UnicodeDecodeError, ValueError
  | UnicodeEncodeError, ValueError => true
  | _, _ => false
  end.

Definition caught (e : exn) (classes : list exn) : bool :=
  existsb (isinstance e) classes.

(** The outcome of evaluating an expression: a value or a raised
    exception. *)
Inductive result (A : Type) : Type :=
| Ok (a : A)
| Raise (e : exn).
Arguments Ok {A} a.
Arguments Raise {A} e.

#[global] Instance result_ret : MRet result := fun A a => Ok a.
#[global] Instance result_bind : MBind result := fun A B f r =>
  match r with
  | Ok a => f a
  | Raise e => Raise e
  end.

Definition raises {A} (r : result A) : bool :=
  match r with Ok _ => false | Raise _ => true end.

(** ** Builtins on values *)

(** Truth value of an object, as [if x:] and [x or y] test it. *)
Definition truthy (v : pyval) : bool :=
  match v with
  | VNone => false
  | VBool b => b
  | VInt z => negb (z =? 0)
  | VFloat f => negb (f =? 0)%float
  | VStr s => negb (String.eqb s "")
  | VList l => match l with [] => false | _ => true end
  | VDict d => negb (bool_decide (d = ∅))
  end.

(** [a or b] *)
Definition py_or (a b : pyval) : pyval := if truthy a then a else b.

(** [d.get(k, dflt)]: only dictionaries have a [get] method. *)
Definition dict_get (v : pyval) (k : string) (dflt : pyval) : result pyval :=
  match v with
  | VDict d => Ok (default dflt (d !! k))
  | _ => Raise AttributeError
  end.

(** [v[k]] for a string key [k]. *)
Definition getitem (v : pyval) (k : string) : result pyval :=
  match v with
  | VDict d => match d !! k with Some x => Ok x | None => Raise KeyError end
  | _ => Raise TypeError
  end.

(** [v[k] = x] for a string key [k]. *)
Definition setitem (v : pyval) (k : string) (x : pyval) : result pyval :=
  match v with
  | VDict d => Ok (VDict (<[k := x]> d))
  | _ => Raise TypeError
  end.

(** [v == s] for a string [s]: only an equal string compares equal. *)
Definition eq_str (v : pyval) (s : string) : bool :=
  match v with
  | VStr t => String.eqb t s
  | _ => false
  end.

(** [l[i]] on a list of strings. *)
Definition list_getitem (l : list string) (i : nat) : result string :=
  match l !! i with
  | Some x => Ok x
  | None => Raise IndexError
  end.

(** Conversion of an integer to the nearest binary64 float (ties to even). *)
Definition float_of_Z (z : Z) : float :=
  SF2Prim (binary_normalize prec emax z 0 false).

(** [x / y] on floats: a zero divisor raises. *)
Definition py_truediv (x y : float) : result float :=
  if (y =? 0)%float then Raise ZeroDivisionError else Ok (x / y)%float.

(** Why [json.loads] raises on a text: it is not JSON
    ([json.JSONDecodeError]), or it is nested deeper than the interpreter's
    recursion limit ([RecursionError]). *)
Inductive json_error : Type := NotJson | TooDeep.

(** Builtins of Python whose full definition is outside the program: they are
    taken as given, and every statement below holds for any choice of them. *)
Record builtins : Type := {
  (** [str(v)] for a value that is not a string *)
  str_of_value : pyval -> string;
  (** [float(s)] for a string: [None] stands for [ValueError] *)
  float_of_str : string -> option float;
  (** [json.loads(s)]: [None] stands for a raised exception, and
      [json_raises] tells which *)
  json_loads : string -> option pyval;
  json_raises : string -> json_error;
  (** [s.strip()] *)
  str_strip : string -> string
}.

Section Builtins.
Context (py : builtins).

(** [str(v)], also the formatting of [{v}] in an f-string. *)
Definition py_str (v : pyval) : string :=
  match v with
  | VStr s => s
  | _ => str_of_value py v
  end.

(** [float(v)] *)
Definition py_float (v : pyval) : result float :=
  match v with
  | VFloat f => Ok f
  | VInt z =>
      let f := float_of_Z z in
      if is_infinity f then Raise OverflowError else Ok f
  | VBool b => Ok (if b then 1 else 0)%float
  | VStr s =>
      match float_of_str py s with
      | Some f => Ok f
      | None => Raise ValueError
      end
  | VNone | VList _ | VDict _ => Raise TypeError
  end.

(** [a + b] as the accumulation of totals uses it: numbers add (an integer
    meeting a float is converted first), strings and lists concatenate. *)
Definition py_add (a b : pyval) : result pyval :=
  let as_int (v : pyval) : option Z :=
    match v with
    | VInt z => Some z
    | VBool b => Some (if b then 1 else 0)
    | _ => None
    end in
  match a, b with
  | VFloat x, VFloat y => Ok (VFloat (x + y))
  | VFloat x, (VInt _ | VBool _) => y ← py_float b; Ok (VFloat (x + y))
  | (VInt _ | VBool _), VFloat y => x ← py_float a; Ok (VFloat (x + y))
  | (VInt _ | VBool _), (VInt _ | VBool _) =>
      match as_int a, as_int b with
      | Some x, Some y => Ok (VInt (x + y))
      | _, _ => Raise TypeError
      end
  | VStr s, VStr t => Ok (VStr (s +:+ t))
  | VList l, VList k => Ok (VList (l ++ k))
  | _, _ => Raise TypeError
  end.

(** [json.loads] as an expression that may raise. *)
Definition loads (s : string) : result pyval :=
  match json_loads py s with
  | Some v => Ok v
  | None =>
      match json_raises py s with
      | NotJson => Raise JSONDecodeError
      | TooDeep => Raise RecursionError
      end
  end.

(** [v.strip()]: only strings have the method. *)
Definition strip_method (v : pyval) : result string :=
  match v with
  | VStr s => Ok (str_strip py s)
  | _ => Raise AttributeError
  end.

End Builtins.

(** ** Text processing *)

Definition newline : ascii := "010"%char.
Definition dquote : ascii := "034"%char.

Fixpoint string_drop (n : nat) (s : string) : string :=
  match n, s with
  | O, _ => s
  | S n', String _ s' => string_drop n' s'
  | S _, EmptyString => EmptyString
  end.

(** The lazy group [(.*?)] followed by the literal [suffix]: the shortest run
    of characters other than newline after which [suffix] follows. *)
Fixpoint lazy_group (suffix s : string) : option string :=
  if String.prefix suffix s then Some EmptyString
  else
    match s with
    | EmptyString => None
    | String c s' =>
        if Ascii.eqb c newline then None
        else String c <$> lazy_group suffix s'
    end.

(** [re.search(pre + "(.*?)" + suf, s)] for literal [pre] and [suf], giving
    [match.group(1)]: the leftmost position where the pattern matches. *)
Fixpoint re_search (pre suf s : string) : option string :=
  let here :=
    if String.prefix pre s
    then lazy_group suf (string_drop (String.length pre) s)
    else None in
  match here with
  | Some g => Some g
  | None =>
      match s with
      | EmptyString => None
      | String _ s' => re_search pre suf s'
      end
  end.

(** [s.split(',')] *)
Fixpoint split_comma (s : string) : list string :=
  match s with
  | EmptyString => [EmptyString]
  | String c s' =>
      if Ascii.eqb c ","%char then EmptyString :: split_comma s'
      else
        match split_comma s' with
        | f :: fs => String c f :: fs
        | [] => [String c EmptyString]
        end
  end.

(** ** The world: clock, network and holdings file *)

Inductive provider : Type := Eastmoney | Sina.

(** What the program reads of a [requests] response: [res.text], and
    [res.content.decode('gbk')] with [None] for [UnicodeDecodeError]. *)
Record response : Type := {
  text : string;
  content_gbk : option string
}.

(** The outcome of [requests.get(url, timeout=2)]. *)
Inductive http : Type :=
| RequestFailed          (* connection error or timeout: RequestException *)
| Received (r : response).

(** [time.localtime()]: day of week (Monday is 0) and hour. *)
Record struct_time : Type := {
  tm_wday : Z;
  tm_hour : Z
}.

(** What [save_holdings] meets when it writes a list: the whole text gets
    written; or [open(CONFIG_FILE, 'w')] raises [OSError] and the file is
    untouched; or [json.dump] raises after [open] has emptied the file
    ([UnicodeEncodeError] for a string that UTF-8 cannot encode, such as a
    lone surrogate, [OSError] for a full disk, [RecursionError]). *)
Inductive write_outcome : Type :=
| Written
| OpenFails
| DumpFails (e : exn).

(** The environment is an oracle indexed by the number of requests made so
    far, so that it may answer differently over time (the request URLs carry
    the fund code and, for the first provider, a millisecond timestamp). *)
Record world : Type := {
  localtime : nat -> struct_time;
  network : nat -> provider -> string -> http;
  strftime_now : nat -> string;
  (** what writing a list to [funds.json] meets *)
  writing : list pyval -> write_outcome
}.

(** The content of [funds.json], as reading it shows: the file is missing;
    or [open] and [json.load] raise ([OSError] for a file that cannot be
    read, [UnicodeDecodeError] for bytes that are not UTF-8,
    [json.JSONDecodeError] for text that is not JSON, [RecursionError] for
    text nested too deep); or they give a value. *)
Inductive file_state : Type :=
| NoFile
| ReadError (e : exn)
| Json (v : pyval).

(** The file after [open(CONFIG_FILE, 'w')] emptied it and [json.dump]
    stopped before the end: the empty text or an unfinished JSON text, which
    [json.load] refuses. *)
Definition truncated : file_state := ReadError JSONDecodeError.

Record state : Type := {
  requests : list (provider * string);   (* the requests sent, oldest first *)
  config_file : file_state
}.

(** Computations: they read the world, change the state and return or
    raise. *)
Definition M (A : Type) : Type := world -> state -> result A * state.

#[global] Instance M_ret : MRet M := fun A a _ s => (Ok a, s).
#[global] Instance M_bind : MBind M := fun A B f m w s =>
  match m w s with
  | (Ok a, s') => f a w s'
  | (Raise e, s') => (Raise e, s')
  end.

Definition lift {A} (r : result A) : M A := fun _ s => (r, s).

(** [try: body except classes: handler] *)
Definition try_except {A} (body : M A) (classes : list exn) (handler : M A) : M A :=
  fun w s =>
    match body w s with
    | (Raise e, s') => if caught e classes then handler w s' else (Raise e, s')
    | ok => ok
    end.

Definition time_localtime : M struct_time :=
  fun w s => (Ok (localtime w (length (requests s))), s).

(** [datetime.now().strftime('%H:%M:%S')] *)
Definition datetime_now_strftime : M string :=
  fun w s => (Ok (strftime_now w (length (requests s))), s).

(** The state after one more request. *)
Definition sent (p : provider) (code : string) (s : state) : state :=
  {| requests := requests s ++ [(p, code)]; config_file := config_file s |}.

(** [requests.get(url, headers=..., timeout=2)] to a provider for a code. *)
Definition requests_get (p : provider) (code : string) : M response :=
  fun w s =>
    match network w (length (requests s)) p code with
    | RequestFailed => (Raise RequestException, sent p code s)
    | Received r => (Ok r, sent p code s)
    end.

(** The holdings a file stands for: its list, or the empty list when the
    file is missing, cannot be read or does not hold a list. *)
Definition stored_holdings (file : file_state) : list pyval :=
  match file with
  | Json (VList data) => data
  | _ => []
  end.

(** [open(CONFIG_FILE, 'r', encoding='utf-8')] and [json.load(f)] on a file
    that exists. *)
Definition json_load_file : M pyval :=
  fun _ s =>
    match config_file s with
    | NoFile => (Raise OSError, s)
    | ReadError e => (Raise e, s)
    | Json v => (Ok v, s)
    end.

(** [load_holdings()]: only [OSError] and [json.JSONDecodeError] are
    caught. *)
Definition load_holdings : M (list pyval) :=
  fun w s =>
    match config_file s with
    | NoFile => (Ok [], s)
    | _ =>
        try_except
          (data ← json_load_file;
           mret (match data with VList l => l | _ => [] end))
          [OSError; JSONDecodeError]
          (mret [])
          w s
    end.

(** [save_holdings(data)]: [open] empties the file before [json.dump] writes,
    and nothing is caught. *)
Definition save_holdings (data : list pyval) : M unit :=
  fun w s =>
    match writing w data with
    | Written =>
        (Ok tt, {| requests := requests s; config_file := Json (VList data) |})
    | OpenFails => (Raise OSError, s)
    | DumpFails e =>
        (Raise e, {| requests := requests s; config_file := truncated |})
    end.

(** What [load_holdings] gives on a file. *)
Definition loaded (file : file_state) : result (list pyval) :=
  match file with
  | ReadError e => if caught e [OSError; JSONDecodeError] then Ok [] else Raise e
  | _ => Ok (stored_holdings file)
  end.

(** ** Data sources *)

(** The inner [try] of [fetch_from_sina]: the content decoded as GBK, or
    [res.text] when that raises [UnicodeDecodeError]. *)
Definition decoded (res : response) : string :=
  match content_gbk res with
  | Some content => content
  | None => text res
  end.

(** The dictionary literal both adapters return. *)
Definition quote (source name : pyval) (gsz dwjz gszzl : float) (update_time : pyval)
  : pyval :=
  VDict (<["source" := source]> (<["name" := name]> (<["gsz" := VFloat gsz]>
        (<["dwjz" := VFloat dwjz]> (<["gszzl" := VFloat gszzl]>
        (<["update_time" := update_time]> ∅)))))).

Section Program.
Context (py : builtins).

(** Realtime estimate from the Eastmoney fund API. *)
Definition fetch_from_eastmoney (code : pyval) : M pyval :=
  try_except
    (res ← requests_get Eastmoney (py_str py code);
     match re_search "jsonpgz(" ");" (text res) with
     | None => mret VNone
     | Some group1 =>
         data ← lift (loads py group1);
         name ← lift (dict_get data "name" (VStr ("基金" +:+ py_str py code)));
         gsz ← lift (dict_get data "gsz" (VInt 0) ≫= py_float py);
         dwjz ← lift (dict_get data "dwjz" (VInt 0) ≫= py_float py);
         gszzl ← lift (dict_get data "gszzl" (VInt 0) ≫= py_float py);
         update_time ← lift (dict_get data "gztime" (VStr ""));
         mret (quote (VStr "eastmoney") name gsz dwjz gszzl update_time)
     end)
    [RequestException; ValueError; JSONDecodeError]
    (mret VNone).

(** Official net value from Sina, usually reliable off-hours. *)
Definition fetch_from_sina (code : pyval) : M pyval :=
  try_except
    (res ← requests_get Sina (py_str py code);
     let content := decoded res in
     match re_search (String "=" (String dquote "")) (String dquote "") content with
     | None => mret VNone
     | Some group1 =>
         let data := split_comma group1 in
         if (length data <? 5)%nat then mret VNone
         else
           name ← lift (list_getitem data 0);
           gsz ← lift (list_getitem data 1 ≫= fun x => py_float py (VStr x));
           dwjz ← lift (list_getitem data 3 ≫= fun x => py_float py (VStr x));
           gszzl ← lift (if truthy (VFloat dwjz)
                         then q ← py_truediv (gsz - dwjz) dwjz; Ok (q * 100)%float
                         else Ok 0%float);
           update_time ← lift (list_getitem data 4);
           mret (quote (VStr "sina") (VStr name) gsz dwjz gszzl (VStr update_time))
     end)
    [RequestException; ValueError; IndexError]
    (mret VNone).

(** The quote to use for a fund code. *)
Definition get_best_data (code : pyval) : M pyval :=
  now ← time_localtime;
  let is_weekend := 5 <=? tm_wday now in
  let is_trading_time := (9 <=? tm_hour now) && (tm_hour now <=? 15) in
  eastmoney ← fetch_from_eastmoney code;
  if is_trading_time && truthy eastmoney then mret eastmoney
  else
    sina ← fetch_from_sina code;
    if is_weekend then mret (py_or sina eastmoney)
    else mret (py_or eastmoney sina).

End Program.

(** ** Business logic *)

Definition format_update_time (value : pyval) : pyval :=
  if negb (truthy value) then VStr "--" else value.

(** The dictionary literal [compute_fund_view] returns. *)
Definition view_record (code name : pyval) (shares cost gsz dwjz : float) (gszzl : pyval)
    (market_value day_profit total_profit : float) (update_time source : pyval) : pyval :=
  VDict (<["code" := code]> (<["name" := name]> (<["shares" := VFloat shares]>
        (<["cost" := VFloat cost]> (<["gsz" := VFloat gsz]> (<["dwjz" := VFloat dwjz]>
        (<["gszzl" := gszzl]> (<["market_value" := VFloat market_value]>
        (<["day_profit" := VFloat day_profit]> (<["total_profit" := VFloat total_profit]>
        (<["update_time" := update_time]> (<["source" := source]> ∅)))))))))))).

Section Views.
Context (py : builtins).

(** The view of one holding, from its record and the quote found for it
    ([remote], or [None]). *)
Definition compute_fund_view (holding remote : pyval) : result pyval :=
  code ← getitem holding "code";
  hname ← dict_get holding "name" VNone;
  let name := py_or hname (VStr ("基金" +:+ py_str py code)) in
  shares ← dict_get holding "shares" (VInt 0) ≫= py_float py;
  cost ← dict_get holding "cost" (VInt 0) ≫= py_float py;
  '(gsz, dwjz, gszzl, name, update_time, source) ←
    (if truthy remote then
       gsz ← dict_get remote "gsz" (VFloat cost) ≫= py_float py;
       dwjz ← dict_get remote "dwjz" (VFloat cost) ≫= py_float py;
       gszzl ← dict_get remote "gszzl" (VInt 0) ≫= py_float py;
       rname ← dict_get remote "name" VNone;
       let name := py_or rname name in
       value ← dict_get remote "update_time" VNone;
       let update_time := format_update_time value in
       source ← dict_get remote "source" (VStr "unknown");
       Ok (gsz, dwjz, VFloat gszzl, name, update_time, source)
     else
       Ok (cost, cost, VInt 0, name, VStr "--", VStr "offline"));
  let market_value := (shares * gsz)%float in
  let day_profit := ((gsz - dwjz) * shares)%float in
  let total_profit := ((gsz - cost) * shares)%float in
  Ok (view_record code name shares cost gsz dwjz gszzl
        market_value day_profit total_profit update_time source).

End Views.

(** ** Routes *)

(** A route's answer: the JSON body and the HTTP status. *)
Definition jsonify (body : pyval) (status : Z) : pyval * Z := (body, status).

Definition error_body (message : string) : pyval :=
  VDict (<["error" := VStr message]> ∅).

Definition success_body : pyval := VDict (<["success" := VBool true]> ∅).

Section Routes.
Context (py : builtins).

(** [GET /api/holdings] *)
Definition get_holdings : M (pyval * Z) :=
  holdings ← load_holdings;
  mret (jsonify (VDict (<["data" := VList holdings]> ∅)) 200).

(** The loop of [add_fund]: the first record whose code equals [code] gets
    the new shares and cost, and the new name when one is given; the loop
    stops there.  The flag is [updated]. *)
Fixpoint update_existing (code : string) (shares cost : float) (name : string)
    (holdings : list pyval) : result (list pyval * bool) :=
  match holdings with
  | [] => Ok ([], false)
  | item :: rest =>
      c ← getitem item "code";
      if eq_str c code then
        item ← setitem item "shares" (VFloat shares);
        item ← setitem item "cost" (VFloat cost);
        item ← (if truthy (VStr name) then setitem item "name" (VStr name)
                else Ok item);
        Ok (item :: rest, true)
      else
        '(rest', updated) ← update_existing code shares cost name rest;
        Ok (item :: rest', updated)
  end.

(** The record [add_fund] appends for a new code. *)
Definition new_holding (code : string) (shares cost : float) (name : string) : pyval :=
  VDict (<["code" := VStr code]>
        (<["name" := py_or (VStr name) (VStr ("基金" +:+ code))]>
        (<["shares" := VFloat shares]> (<["cost" := VFloat cost]> ∅)))).

(** [POST /api/add_fund] with the JSON body [data]. *)
Definition add_fund (data : pyval) : M (pyval * Z) :=
  code_field ← lift (dict_get data "code" (VStr ""));
  let code := str_strip py (py_str py code_field) in
  if negb (truthy (VStr code)) then mret (jsonify (error_body "基金代码不能为空") 400)
  else
    shares ← lift (dict_get data "shares" (VInt 0) ≫= py_float py);
    cost ← lift (dict_get data "cost" (VInt 0) ≫= py_float py);
    name ← lift (dict_get data "name" (VStr "") ≫= strip_method py);
    if (shares <=? 0)%float then mret (jsonify (error_body "持有份额必须大于0") 400)
    else if (cost <=? 0)%float then mret (jsonify (error_body "成本价必须大于0") 400)
    else
      holdings ← load_holdings;
      '(holdings, updated) ← lift (update_existing code shares cost name holdings);
      let holdings :=
        if negb updated then holdings ++ [new_holding code shares cost name]
        else holdings in
      _ ← save_holdings holdings;
      mret (jsonify success_body 200).

(** The list comprehension of [delete_fund]. *)
Fixpoint other_codes (code : string) (holdings : list pyval) : result (list pyval) :=
  match holdings with
  | [] => Ok []
  | item :: rest =>
      c ← getitem item "code";
      rest' ← other_codes code rest;
      Ok (if negb (eq_str c code) then item :: rest' else rest')
  end.

(** [POST /api/delete_fund] with the JSON body [data]. *)
Definition delete_fund (data : pyval) : M (pyval * Z) :=
  code_field ← lift (dict_get data "code" (VStr ""));
  let code := str_strip py (py_str py code_field) in
  holdings ← load_holdings;
  new_holdings ← lift (other_codes code holdings);
  _ ← save_holdings new_holdings;
  mret (jsonify success_body 200).

(** The totals of [get_valuations], as the loop carries them. *)
Record totals : Type := {
  total_market : pyval;
  total_day : pyval;
  total_profit : pyval
}.

(** The loop of [get_valuations] over the holdings still to visit. *)
Fixpoint valuations_loop (holdings : list pyval) (data : list pyval) (t : totals)
    : M (list pyval * totals) :=
  match holdings with
  | [] => mret (data, t)
  | holding :: rest =>
      code ← lift (getitem holding "code");
      remote ← get_best_data py code;
      view ← lift (compute_fund_view py holding remote);
      let data := data ++ [view] in
      market ← lift (getitem view "market_value" ≫= py_add py (total_market t));
      day ← lift (getitem view "day_profit" ≫= py_add py (total_day t));
      profit ← lift (getitem view "total_profit" ≫= py_add py (total_profit t));
      valuations_loop rest data
        {| total_market := market; total_day := day; total_profit := profit |}
  end.

Definition summary_of (t : totals) (updated_at : string) : pyval :=
  VDict (<["total_market_value" := total_market t]>
        (<["total_day_profit" := total_day t]>
        (<["total_hold_profit" := total_profit t]>
        (<["updated_at" := VStr updated_at]> ∅)))).

(** [GET /api/valuations] *)
Definition get_valuations : M (pyval * Z) :=
  holdings ← load_holdings;
  '(data, t) ← valuations_loop holdings []
      {| total_market := VInt 0; total_day := VInt 0; total_profit := VInt 0 |};
  updated_at ← datetime_now_strftime;
  let response :=
    VDict (<["data" := VList data]> (<["summary" := summary_of t updated_at]> ∅)) in
  mret (jsonify response 200).

End Routes.

(** ** Holdings lists *)

(** The code of a record, when it is a dictionary with one. *)
Definition code_of (item : pyval) : option pyval :=
  match item with
  | VDict d => d !! "code"
  | _ => None
  end.

(** The record has the code [code]. *)
Definition has_code (code : string) (item : pyval) : bool :=
  match code_of item with
  | Some v => eq_str v code
  | None => false
  end.

(** A record of the holdings list as [add_fund] rewrites it: new shares and
    cost, and the new name when it is not empty; every other key is kept. *)
Definition rewritten (shares cost : float) (name : string) (d : gmap string pyval)
  : gmap string pyval :=
  let d := <["cost" := VFloat cost]> (<["shares" := VFloat shares]> d) in
  if truthy (VStr name) then <["name" := VStr name]> d else d.

(** The name of a holding as a view shows it: its own name, or the
    placeholder made of its code. *)
Definition holding_name (py : builtins) (h : gmap string pyval) (code : pyval) : pyval :=
  py_or (default VNone (h !! "name")) (VStr ("基金" +:+ py_str py code)).

(** A record of the holdings file that the valuation can read: a dictionary
    with a code, whose shares and cost convert to floats. *)
Definition readable (py : builtins) (item : pyval) : Prop :=
  exists (h : gmap string pyval) (code : pyval) (shares cost : float),
    item = VDict h /\ h !! "code" = Some code /\
    dict_get (VDict h) "shares" (VInt 0) ≫= py_float py = Ok shares /\
    dict_get (VDict h) "cost" (VInt 0) ≫= py_float py = Ok cost.

(** A total of the valuation loop: the initial integer 0 or a float. *)
Definition running_total (v : pyval) : Prop := v = VInt 0 \/ exists f, v = VFloat f.

(** ** Sums over views *)

(** The sum of the field [k] over a list of views, accumulated from the left
    from the integer 0 with the addition of Python, as
    [total = 0; for view in views: total += view[k]] computes it. *)
Definition sum_field (py : builtins) (k : string) (views : list pyval) : result pyval :=
  foldl (fun acc view => total ← acc; x ← getitem view k; py_add py total x)
        (Ok (VInt 0)) views.

(** ** The resolution policy as the specification words it *)

(** The session state of a local time as section 4.1 of the specification
    words it: the weekend test comes first. *)
Inductive session : Type := Weekend | TradingHours | OffHours.

Definition session_state (t : struct_time) : session :=
  if 5 <=? tm_wday t then Weekend
  else if (9 <=? tm_hour t) && (tm_hour t <=? 15) then TradingHours
  else OffHours.

Inductive choice : Type := Primary | Secondary | NoQuote.

(** The decision table of section 4.4 of the specification, row by row: the
    session state and the availability of the two providers give the
    choice. *)
Definition decision_table (ses : session) (primary secondary : bool) : choice :=
  match ses, primary, secondary with
  | TradingHours, true, _ => Primary
  | TradingHours, false, true => Secondary
  | TradingHours, false, false => NoQuote
  | Weekend, true, true => Secondary
  | Weekend, true, false => Primary
  | Weekend, false, true => Secondary
  | Weekend, false, false => NoQuote
  | OffHours, true, _ => Primary
  | OffHours, false, true => Secondary
  | OffHours, false, false => NoQuote
  end.

(** The quote a choice designates, given what each provider answered. *)
Definition chosen (c : choice) (primary secondary : pyval) : pyval :=
  match c with
  | Primary => primary
  | Secondary => secondary
  | NoQuote => VNone
  end.

(** The requests a run added to the log. *)
Definition added_requests (s s' : state) (l : list (provider * string)) : Prop :=
  requests s' = requests s ++ l.

(** ** Builtins for the worked examples *)

(** The builtins on the few inputs that the examples below use. *)
Definition demo_builtins : builtins := {|
  str_of_value := fun _ => "?"%string;
  float_of_str := fun s =>
    if String.eqb s "1.5" then Some 1.5%float
    else if String.eqb s "1.25" then Some 1.25%float
    else if String.eqb s "0" then Some 0%float
    else if String.eqb s "inf" then Some infinity
    else None;
  json_loads := fun s =>
    if String.eqb s "{}" then Some (VDict ∅)
    else if String.eqb s "[1]" then Some (VList [VInt 1])
    else if String.eqb s "null" then Some VNone
    else None;
  json_raises := fun _ => NotJson;
  str_strip := fun s => s
|}.

(** A world with a fixed clock in which each provider always gives the same
    answer. *)
Definition fixed_world (wday hour : Z) (eastmoney sina : http) : world := {|
  localtime := fun _ => {| tm_wday := wday; tm_hour := hour |};
  network := fun _ p _ => match p with Eastmoney => eastmoney | Sina => sina end;
  strftime_now := fun _ => "12:00:00"%string;
  writing := fun _ => Written
|}.

(** The same world on a disk where [json.dump] raises [e]. *)
Definition failing_dump (e : exn) (w : world) : world := {|
  localtime := localtime w;
  network := network w;
  strftime_now := strftime_now w;
  writing := fun _ => DumpFails e
|}.

Definition body (content : string) : http :=
  Received {| text := content; content_gbk := Some content |}.

(** An answer of the first provider with an empty JSON object: every field
    takes its default. *)
Definition eastmoney_empty_object : http := body "jsonpgz({});".

(** An answer of the first provider whose JSON value is a list. *)
Definition eastmoney_list : http := body "jsonpgz([1]);".

(** An answer of the second provider: name X, estimate 1.5, last net value
    1.25. *)
Definition sina_record : http :=
  body ("var hq_str_f_000001=" +:+
        String dquote ("X,1.5,0,1.25,2024-01-05" +:+ String dquote ";")).

(** An answer of the second provider whose last net value is zero. *)
Definition sina_zero_record : http :=
  body ("var hq_str_f_000001=" +:+
        String dquote ("X,1.5,0,0,2024-01-05" +:+ String dquote ";")).

Definition fresh (file : file_state) : state :=
  {| requests := []; config_file := file |}.

Definition holding_fields (code name : string) (shares cost : float)
  : gmap string pyval :=
  <["code" := VStr code]> (<["name" := VStr name]>
    (<["shares" := VFloat shares]> (<["cost" := VFloat cost]> ∅))).

(** A holdings file with two records. *)
Definition two_holdings : file_state :=
  Json (VList [VDict (holding_fields "000001" "A" 100 1.5);
               VDict (holding_fields "000002" "B" 10 1.25)]).

(** The JSON bodies of an add request (without a name) and of a delete
    request. *)
Definition add_request (code : string) (shares cost : float) : pyval :=
  VDict (<["code" := VStr code]> (<["shares" := VFloat shares]>
        (<["cost" := VFloat cost]> ∅))).

Definition delete_request (code : string) : pyval :=
  VDict (<["code" := VStr code]> ∅).

Definition holding_record (code name : string) (shares cost : float) : pyval :=
  VDict (holding_fields code name shares cost).

(** ** Definitions for the further properties *)

(** The character [c] occurs in [s]. *)
Fixpoint occurs (c : ascii) (s : string) : bool :=
  match s with
  | EmptyString => false
  | String a s' => Ascii.eqb a c || occurs c s'
  end.

(** A text without comma, double quote or newline. *)
Definition plain_text (s : string) : Prop :=
  occurs ","%char s = false /\ occurs dquote s = false /\ occurs newline s = false.

(** [",".join(fields)] *)
Fixpoint join_comma (fields : list string) : string :=
  match fields with
  | [] => EmptyString
  | [f] => f
  | f :: fs => f +:+ String ","%char (join_comma fs)
  end.

(** The three numbers [fetch_from_eastmoney] reads from a JSON object, in the
    order of the dictionary literal. *)
Definition eastmoney_numbers (py : builtins) (d : gmap string pyval)
  : result (float * float * float) :=
  gsz ← dict_get (VDict d) "gsz" (VInt 0) ≫= py_float py;
  dwjz ← dict_get (VDict d) "dwjz" (VInt 0) ≫= py_float py;
  gszzl ← dict_get (VDict d) "gszzl" (VInt 0) ≫= py_float py;
  Ok (gsz, dwjz, gszzl).

(** A quote of one of the two providers, or [None]. *)
Definition provider_quote (remote : pyval) : Prop :=
  remote = VNone \/
  exists source name gsz dwjz gszzl update_time,
    remote = quote (VStr source) name gsz dwjz gszzl update_time /\
    (source = "eastmoney"%string \/ source = "sina"%string).

(** The state after the requests [l] were sent. *)
Definition after_requests (l : list (provider * string)) (s : state) : state :=
  {| requests := requests s ++ l; config_file := config_file s |}.

(** The holdings list after [add_fund] accepted a request: the first record
    with the code rewritten, or a new record appended. *)
Definition upserted (code : string) (shares cost : float) (name : string)
    (holdings : list pyval) : list pyval :=
  match update_existing code shares cost name holdings with
  | Ok (holdings', true) => holdings'
  | Ok (holdings', false) => holdings' ++ [new_holding code shares cost name]
  | Raise _ => holdings
  end.

(** The holdings list after [delete_fund]. *)
Definition without_code (code : string) (holdings : list pyval) : list pyval :=
  List.filter (fun item => negb (has_code code item)) holdings.

(** The request of [add_fund] is accepted with these values: the fields
    convert, the code is not empty and the amounts pass the tests. *)
Definition accepted (py : builtins) (data : pyval) (code : string)
    (shares cost : float) (name : string) : Prop :=
  (exists code_field, dict_get data "code" (VStr "") = Ok code_field /\
                      code = str_strip py (py_str py code_field)) /\
  code <> ""%string /\
  dict_get data "shares" (VInt 0) ≫= py_float py = Ok shares /\
  dict_get data "cost" (VInt 0) ≫= py_float py = Ok cost /\
  dict_get data "name" (VStr "") ≫= strip_method py = Ok name /\
  (shares <=? 0)%float = false /\ (cost <=? 0)%float = false.

(** A holdings file whose second record has no code. *)
Definition broken_holdings : file_state :=
  Json (VList [VDict (holding_fields "000001" "A" 100 1.5); VDict ∅]).

(** * Properties *)

(** ** Text processing, on examples *)

Example re_search_jsonp :
  re_search "jsonpgz(" ");" "x jsonpgz({a});jsonpgz(b);" = Some "{a}".
Proof. reflexivity. Qed.

Example re_search_newline :
  re_search "jsonpgz(" ");" (String.append "jsonpgz(a" (String newline "); jsonpgz(b);"))
  = Some "b".
Proof. reflexivity. Qed.

Example split_comma_fields : split_comma "a,,b," = ["a"; ""; "b"; ""]%string.
Proof. reflexivity. Qed.

(** ** Binary64 facts used below *)

Lemma finite_classes (x : float) :
  is_finite x = true ->
  (exists s, Prim2SF x = S754_zero s) \/ (exists s m e, Prim2SF x = S754_finite s m e).
Proof.
  unfold is_finite, is_nan, is_infinity.
  rewrite !FloatAxioms.eqb_spec, abs_spec.
  destruct (Prim2SF x) as [s | s | | s m e]; eauto.
  - destruct s; vm_compute; discriminate.
  - vm_compute; discriminate.
Qed.

(** A finite float minus itself is [+0]. *)
Lemma sub_diag_finite (x : float) : is_finite x = true -> (x - x)%float = 0%float.
Proof.
  intros H. apply Prim2SF_inj. rewrite sub_spec.
  destruct (finite_classes x H) as [[s ->] | (s & m & e & ->)].
  - destruct s; reflexivity.
  - change (Prim2SF 0) with (S754_zero false).
    unfold SF64sub, SFsub.
    rewrite Z.min_id. unfold shl_align. rewrite Z.sub_diag.
    cbn [fst].
    replace (cond_Zopp s (Z.pos m) + cond_Zopp (negb s) (Z.pos m)) with 0
      by (destruct s; cbn; lia).
    reflexivity.
Qed.

Lemma positive_finite (y : float) :
  is_finite y = true -> (0 <? y)%float = true ->
  exists m e, Prim2SF y = S754_finite false m e.
Proof.
  intros Hf Hp. rewrite ltb_spec in Hp.
  change (Prim2SF 0) with (S754_zero false) in Hp.
  destruct (finite_classes y Hf) as [[s E] | (s & m & e & E)]; rewrite E in Hp.
  - destruct s; discriminate.
  - destruct s; [discriminate | eauto].
Qed.

(** [+0] times a finite positive float is [+0]. *)
Lemma mul_zero_positive (y : float) :
  is_finite y = true -> (0 <? y)%float = true -> (0 * y)%float = 0%float.
Proof.
  intros Hf Hp. apply Prim2SF_inj. rewrite mul_spec.
  destruct (positive_finite y Hf Hp) as (m & e & ->). reflexivity.
Qed.

(** [+0] times a finite float compares equal to zero (it is [+0] or [-0]). *)
Lemma mul_zero_finite (y : float) :
  is_finite y = true -> (0 * y =? 0)%float = true.
Proof.
  intros Hf. rewrite FloatAxioms.eqb_spec, mul_spec.
  destruct (finite_classes y Hf) as [[s ->] | (s & m & e & ->)]; destruct s; reflexivity.
Qed.


(** ** The adapters *)

Ltac run :=
  unfold mbind, mret, M_bind, M_ret, result_bind, result_ret, lift, try_except,
    requests_get, time_localtime, datetime_now_strftime in *.

Lemma bind_run {A B} (m : M A) (f : A -> M B) (w : world) (s : state) :
  (m ≫= f) w s =
  match m w s with
  | (Ok a, s') => f a w s'
  | (Raise e, s') => (Raise e, s')
  end.
Proof. reflexivity. Qed.

Lemma lift_run {A} (r : result A) (w : world) (s : state) : lift r w s = (r, s).
Proof. reflexivity. Qed.

(** ** The holdings file *)

(** [load_holdings] leaves the state as it is; it returns the list of the
    file, the empty list for a missing file, for a value that is no list and
    for a caught error, and lets every other error out. *)
Lemma load_holdings_run (w : world) (s : state) :
  load_holdings w s = (loaded (config_file s), s).
Proof.
  unfold load_holdings, loaded, json_load_file. run.
  destruct (config_file s) as [| e | v]; [done | | by destruct v].
  by destruct (caught e _).
Qed.

Lemma load_holdings_ok (w : world) (s : state) (holdings : list pyval) :
  load_holdings w s = (Ok holdings, s) -> holdings = stored_holdings (config_file s).
Proof.
  rewrite load_holdings_run. unfold loaded.
  destruct (config_file s) as [| e | v]; [congruence | | congruence].
  destruct (caught e _); [| done]. by intros [= <-].
Qed.

Lemma load_holdings_returns (w : world) (s : state) :
  raises (fst (load_holdings w s)) = false ->
  load_holdings w s = (Ok (stored_holdings (config_file s)), s).
Proof.
  rewrite load_holdings_run. unfold loaded.
  destruct (config_file s) as [| e | v]; [done | | done].
  by destruct (caught e _).
Qed.

Lemma loaded_stored (file : file_state) (holdings : list pyval) :
  loaded file = Ok holdings -> holdings = stored_holdings file.
Proof.
  unfold loaded. destruct file as [| e | v]; [congruence | | congruence].
  destruct (caught e _); [| done]. by intros [= <-].
Qed.

(** [save_holdings], case by case. *)
Lemma save_holdings_run (data : list pyval) (w : world) (s : state) :
  save_holdings data w s =
  match writing w data with
  | Written => (Ok tt, {| requests := requests s; config_file := Json (VList data) |})
  | OpenFails => (Raise OSError, s)
  | DumpFails e => (Raise e, {| requests := requests s; config_file := truncated |})
  end.
Proof. reflexivity. Qed.

Lemma truthy_quote source name gsz dwjz gszzl update_time :
  truthy (quote source name gsz dwjz gszzl update_time) = true.
Proof.
  unfold quote, truthy. rewrite bool_decide_eq_false_2; [done |].
  apply insert_non_empty.
Qed.

Section AdapterFacts.
Context (py : builtins).

(** The guarded division of [fetch_from_sina] never raises. *)
Lemma sina_percent_total (gsz dwjz : float) :
  (if truthy (VFloat dwjz)
   then q ← py_truediv (gsz - dwjz) dwjz; Ok (q * 100)%float
   else Ok 0%float)
  = Ok (if (dwjz =? 0)%float then 0 else (gsz - dwjz) / dwjz * 100)%float.
Proof.
  unfold truthy, py_truediv. destruct (dwjz =? 0)%float; reflexivity.
Qed.

(** The second adapter always returns, with [None] or with a quote, after
    exactly one request. *)
Lemma fetch_from_sina_returns (code : pyval) (w : world) (s : state) :
  exists v,
    fetch_from_sina py code w s = (Ok v, sent Sina (py_str py code) s) /\
    (v = VNone \/
     exists name gsz dwjz gszzl update_time,
       v = quote (VStr "sina") (VStr name) gsz dwjz gszzl (VStr update_time)).
Proof.
  unfold fetch_from_sina, list_getitem, py_float, py_truediv, truthy. run.
  destruct (network w _ Sina _) as [| r]; cbn; [eauto |].
  repeat (case_match; cbn in *; simplify_eq); eauto 10.
Qed.

(** The first adapter sends exactly one request, whatever its outcome. *)
Lemma fetch_from_eastmoney_sends (code : pyval) (w : world) (s : state) :
  snd (fetch_from_eastmoney py code w s) = sent Eastmoney (py_str py code) s.
Proof.
  unfold fetch_from_eastmoney. run.
  destruct (network w _ Eastmoney _) as [| r]; cbn; [done |].
  repeat (case_match; cbn in *; simplify_eq); done.
Qed.

End AdapterFacts.

(** ** The resolver *)

Section ResolverFacts.
Context (py : builtins).

(** What the first adapter returns is [None] or a quote. *)
Lemma fetch_from_eastmoney_value (code : pyval) (w : world) (s s1 : state) (v : pyval) :
  fetch_from_eastmoney py code w s = (Ok v, s1) ->
  v = VNone \/
  exists name gsz dwjz gszzl update_time,
    v = quote (VStr "eastmoney") name gsz dwjz gszzl update_time.
Proof.
  unfold fetch_from_eastmoney. run.
  destruct (network w _ Eastmoney _) as [| r]; cbn; [naive_solver |].
  repeat (case_match; cbn in *; simplify_eq); naive_solver.
Qed.

(** [get_best_data] in terms of the outcomes of the two adapters. *)
Lemma get_best_data_run (code : pyval) (w : world) (s : state) :
  get_best_data py code w s =
  let now := localtime w (length (requests s)) in
  match fetch_from_eastmoney py code w s with
  | (Raise e, s1) => (Raise e, s1)
  | (Ok eastmoney, s1) =>
      if (9 <=? tm_hour now) && (tm_hour now <=? 15) && truthy eastmoney
      then (Ok eastmoney, s1)
      else
        match fetch_from_sina py code w s1 with
        | (Raise e, s2) => (Raise e, s2)
        | (Ok sina, s2) =>
            (Ok (if 5 <=? tm_wday now then py_or sina eastmoney
                 else py_or eastmoney sina), s2)
        end
  end.
Proof.
  unfold get_best_data. run. cbn.
  destruct (fetch_from_eastmoney py code w s) as [[eastmoney | e] s1]; [| done].
  destruct (_ && truthy eastmoney); [done |].
  destruct (fetch_from_sina py code w s1) as [[sina | e] s2]; [| done].
  by destruct (5 <=? _).
Qed.

(** The resolver follows the decision table of the specification in every
    case but one: at a weekend, between 9 and 15, with both providers
    available. *)
Lemma get_best_data_decision_table (code : pyval) (w : world) (s s1 s2 : state)
    (eastmoney sina : pyval) :
  let now := localtime w (length (requests s)) in
  fetch_from_eastmoney py code w s = (Ok eastmoney, s1) ->
  fetch_from_sina py code w s1 = (Ok sina, s2) ->
  ~ (session_state now = Weekend /\ 9 <= tm_hour now <= 15 /\
     truthy eastmoney = true /\ truthy sina = true) ->
  fst (get_best_data py code w s) =
  Ok (chosen (decision_table (session_state now) (truthy eastmoney) (truthy sina))
        eastmoney sina).
Proof.
  intros now He Hs Hrow. rewrite get_best_data_run. fold now. rewrite He.
  assert (truthy eastmoney = false -> eastmoney = VNone) as Pe.
  { destruct (fetch_from_eastmoney_value _ _ _ _ _ He) as [-> | (? & ? & ? & ? & ? & ->)];
      [done | by rewrite truthy_quote]. }
  assert (truthy sina = false -> sina = VNone) as Ps.
  { destruct (fetch_from_sina_returns py code w s1) as (v & Hv & Hq).
    rewrite Hs in Hv. simplify_eq.
    destruct Hq as [-> | (? & ? & ? & ? & ? & ->)]; [done | by rewrite truthy_quote]. }
  unfold session_state in *. unfold py_or.
  destruct (5 <=? tm_wday now) eqn:Ew;
    destruct (9 <=? tm_hour now) eqn:E9; destruct (tm_hour now <=? 15) eqn:E15;
    destruct (truthy eastmoney) eqn:Te; cbn; rewrite ?Hs; cbn;
    destruct (truthy sina) eqn:Ts; cbn;
    rewrite ?Pe, ?Ps by done; try done;
    exfalso; apply Hrow; repeat split; try done; lia.
Qed.

End ResolverFacts.

(** C1 (the code departs from the claim): on a Saturday or Sunday between 9
    and 15 with both providers available, [get_best_data] returns the quote
    of the first provider and does not consult the second, whereas the
    decision table of the specification designates the second provider's
    quote. *)
Theorem get_best_data_weekend_daytime (py : builtins) (code : pyval) (w : world)
    (s s1 s2 : state) (eastmoney sina : pyval) :
  let now := localtime w (length (requests s)) in
  5 <= tm_wday now -> 9 <= tm_hour now <= 15 ->
  fetch_from_eastmoney py code w s = (Ok eastmoney, s1) ->
  fetch_from_sina py code w s1 = (Ok sina, s2) ->
  truthy eastmoney = true -> truthy sina = true ->
  get_best_data py code w s = (Ok eastmoney, s1) /\
  session_state now = Weekend /\
  chosen (decision_table (session_state now) (truthy eastmoney) (truthy sina))
    eastmoney sina = sina.
Proof.
  intros now Hw [H9 H15] He Hs Te Ts. subst now.
  apply Z.leb_le in Hw, H9, H15.
  rewrite get_best_data_run. cbv zeta. rewrite He, Te, H9, H15.
  unfold session_state. by rewrite Hw, Ts.
Qed.

Lemma get_best_data_weekend_daytime_witness :
  let w := fixed_world 5 10 eastmoney_empty_object sina_record in
  let primary := quote (VStr "eastmoney") (VStr "基金000001") 0 0 0 (VStr "") in
  let secondary := quote (VStr "sina") (VStr "X") 1.5 1.25 20 (VStr "2024-01-05") in
  get_best_data demo_builtins (VStr "000001") w (fresh NoFile)
    = (Ok primary, sent Eastmoney "000001" (fresh NoFile)) /\
  session_state (localtime w 0) = Weekend /\
  chosen (decision_table (session_state (localtime w 0)) (truthy primary)
            (truthy secondary)) primary secondary = secondary.
Proof.
  intros w primary secondary.
  apply (get_best_data_weekend_daytime demo_builtins (VStr "000001") w (fresh NoFile)
           (sent Eastmoney "000001" (fresh NoFile))
           (sent Sina "000001" (sent Eastmoney "000001" (fresh NoFile)))
           primary secondary).
  - cbn. lia.
  - cbn. lia.
  - reflexivity.
  - reflexivity.
  - reflexivity.
  - reflexivity.
Defined.

(** ** Exceptions at the adapter boundary *)

(** C2 (the code departs from the claim): when the JSONP wrapper of the first
    provider holds a JSON value that is not an object (a list, a number, a
    string, [null]), [data.get] raises [AttributeError], which the [except]
    clause of [fetch_from_eastmoney] does not list: the exception leaves the
    adapter. *)
Theorem fetch_from_eastmoney_raises (py : builtins) (code : pyval) (w : world)
    (s : state) (r : response) (group1 : string) (data : pyval) :
  network w (length (requests s)) Eastmoney (py_str py code) = Received r ->
  re_search "jsonpgz(" ");" (text r) = Some group1 ->
  json_loads py group1 = Some data ->
  (forall d, data <> VDict d) ->
  fetch_from_eastmoney py code w s
  = (Raise AttributeError, sent Eastmoney (py_str py code) s).
Proof.
  intros Hnet Hre Hjson Hdata. unfold fetch_from_eastmoney, loads. run.
  rewrite Hnet, Hre, Hjson. cbn.
  destruct data; try reflexivity. by destruct (Hdata d).
Qed.

Lemma fetch_from_eastmoney_raises_witness :
  fetch_from_eastmoney demo_builtins (VStr "000001")
    (fixed_world 0 10 eastmoney_list sina_record) (fresh NoFile)
  = (Raise AttributeError, sent Eastmoney "000001" (fresh NoFile)).
Proof.
  apply (fetch_from_eastmoney_raises demo_builtins (VStr "000001")
           (fixed_world 0 10 eastmoney_list sina_record) (fresh NoFile)
           {| text := "jsonpgz([1]);"; content_gbk := Some "jsonpgz([1]);"%string |}
           "[1]" (VList [VInt 1])).
  - reflexivity.
  - reflexivity.
  - reflexivity.
  - intros d. discriminate.
Defined.

(** A field that is [null], a list or an object makes [float] raise
    [TypeError], which leaves the first adapter as well. *)
Lemma fetch_from_eastmoney_raises_type_error (py : builtins) (code : pyval)
    (w : world) (s : state) (r : response) (group1 : string) (d : gmap string pyval) :
  network w (length (requests s)) Eastmoney (py_str py code) = Received r ->
  re_search "jsonpgz(" ");" (text r) = Some group1 ->
  json_loads py group1 = Some (VDict d) ->
  d !! "gsz" = Some VNone ->
  fetch_from_eastmoney py code w s
  = (Raise TypeError, sent Eastmoney (py_str py code) s).
Proof.
  intros Hnet Hre Hjson Hgsz. unfold fetch_from_eastmoney, loads. run.
  rewrite Hnet, Hre, Hjson. cbn. by rewrite Hgsz.
Qed.

(** The exception also leaves the resolver and the valuation route. *)
Lemma get_best_data_propagates (py : builtins) (code : pyval) (w : world)
    (s s1 : state) (e : exn) :
  fetch_from_eastmoney py code w s = (Raise e, s1) ->
  get_best_data py code w s = (Raise e, s1).
Proof. intros He. rewrite get_best_data_run. cbv zeta. by rewrite He. Qed.

(** The second adapter never lets an exception out, whatever the builtins and
    the response. *)
Lemma fetch_from_sina_never_raises (py : builtins) (code : pyval) (w : world)
    (s : state) :
  raises (fst (fetch_from_sina py code w s)) = false.
Proof.
  destruct (fetch_from_sina_returns py code w s) as (v & -> & _). reflexivity.
Qed.

(** The first adapter lets no exception out when the request fails, when the
    wrapper is missing and when the wrapped text is not JSON. *)
Lemma fetch_from_eastmoney_unavailable (py : builtins) (code : pyval) (w : world)
    (s : state) :
  match network w (length (requests s)) Eastmoney (py_str py code) with
  | RequestFailed => True
  | Received r =>
      match re_search "jsonpgz(" ");" (text r) with
      | None => True
      | Some group1 => json_loads py group1 = None /\ json_raises py group1 = NotJson
      end
  end ->
  fetch_from_eastmoney py code w s = (Ok VNone, sent Eastmoney (py_str py code) s).
Proof.
  unfold fetch_from_eastmoney, loads. run.
  destruct (network w _ Eastmoney _) as [| r]; cbn; [done |].
  destruct (re_search _ _ _) as [g |]; [| done].
  by intros [-> ->].
Qed.

(** A wrapped text nested too deep makes [json.loads] raise [RecursionError],
    which is no [ValueError] and leaves the first adapter. *)
Lemma fetch_from_eastmoney_too_deep (py : builtins) (code : pyval) (w : world)
    (s : state) (r : response) (group1 : string) :
  network w (length (requests s)) Eastmoney (py_str py code) = Received r ->
  re_search "jsonpgz(" ");" (text r) = Some group1 ->
  json_loads py group1 = None ->
  json_raises py group1 = TooDeep ->
  fetch_from_eastmoney py code w s
  = (Raise RecursionError, sent Eastmoney (py_str py code) s).
Proof.
  intros Hnet Hre Hjson Hdeep. unfold fetch_from_eastmoney, loads. run.
  by rewrite Hnet, Hre, Hjson, Hdeep.
Qed.

(** ** The requests of the resolver *)

(** C3 (counterexample): on a Monday at 20:00 (off hours) the first provider,
    preferred then, is available, and the resolver still sends a request to
    the second provider; so available quotes of the preferred provider do not
    keep the other provider from being fetched. *)
Lemma get_best_data_fetches_unneeded :
  ~ (forall (py : builtins) (code : pyval) (w : world) (s s1 : state) (eastmoney : pyval),
       session_state (localtime w (length (requests s))) = OffHours ->
       fetch_from_eastmoney py code w s = (Ok eastmoney, s1) ->
       truthy eastmoney = true ->
       added_requests s (snd (get_best_data py code w s))
         [(Eastmoney, py_str py code)]).
Proof.
  intros H.
  specialize (H demo_builtins (VStr "000001")
                (fixed_world 0 20 eastmoney_empty_object sina_record) (fresh NoFile)
                (sent Eastmoney "000001" (fresh NoFile))
                (quote (VStr "eastmoney") (VStr "基金000001") 0 0 0 (VStr ""))
                eq_refl eq_refl eq_refl).
  vm_compute in H. discriminate H.
Qed.

(** C3 (amended): the resolver sends one request to the first provider, then
    at most one to the second, and nothing else, even when it raises.  When
    the first adapter returns: during trading hours the second provider is
    fetched exactly when the first is unavailable; off hours, and at weekends
    before 9 and after 15, both providers are fetched whatever the first
    answered. *)
Theorem get_best_data_requests (py : builtins) (code : pyval) (w : world) (s : state) :
  let now := localtime w (length (requests s)) in
  let c := py_str py code in
  let s' := snd (get_best_data py code w s) in
  (added_requests s s' [(Eastmoney, c)] \/
   added_requests s s' [(Eastmoney, c); (Sina, c)]) /\
  (forall eastmoney s1,
     fetch_from_eastmoney py code w s = (Ok eastmoney, s1) ->
     match session_state now with
     | TradingHours =>
         added_requests s s'
           (if truthy eastmoney then [(Eastmoney, c)] else [(Eastmoney, c); (Sina, c)])
     | OffHours => added_requests s s' [(Eastmoney, c); (Sina, c)]
     | Weekend =>
         ~ (9 <= tm_hour now <= 15) ->
         added_requests s s' [(Eastmoney, c); (Sina, c)]
     end).
Proof.
  intros now c s'. subst now c s'. unfold added_requests.
  rewrite get_best_data_run. cbv zeta.
  pose proof (fetch_from_eastmoney_sends py code w s) as Hsent.
  destruct (fetch_from_eastmoney py code w s) as [[eastmoney | e] s1];
    cbn in Hsent; subst s1.
  2: { split; [by left | intros ? ? [=]]. }
  destruct (fetch_from_sina_returns py code w (sent Eastmoney (py_str py code) s))
    as (sina & Hs & _).
  rewrite Hs. split.
  - destruct (_ && truthy eastmoney); cbn; [by left | right].
    by rewrite <- app_assoc.
  - intros ? ? [= <- _]. unfold session_state.
    destruct (5 <=? _) eqn:Ew.
    + intros Hh.
      assert ((9 <=? tm_hour (localtime w (length (requests s))))
              && (tm_hour (localtime w (length (requests s))) <=? 15) = false) as ->
        by (apply andb_false_iff; lia).
      cbn. by rewrite <- app_assoc.
    + destruct (_ && _); cbn.
      * destruct (truthy eastmoney); cbn; [done | by rewrite <- app_assoc].
      * by rewrite <- app_assoc.
Qed.

Lemma get_best_data_requests_witness :
  let w := fixed_world 0 10 eastmoney_empty_object sina_record in
  added_requests (fresh NoFile)
    (snd (get_best_data demo_builtins (VStr "000001") w (fresh NoFile)))
    [(Eastmoney, "000001"%string)].
Proof.
  intros w.
  exact (proj2 (get_best_data_requests demo_builtins (VStr "000001") w (fresh NoFile))
           (quote (VStr "eastmoney") (VStr "基金000001") 0 0 0 (VStr ""))
           (sent Eastmoney "000001" (fresh NoFile)) eq_refl).
Defined.

(** ** Views *)

(** Lookups in dictionary literals with known keys. *)
Ltac literal_lookup :=
  repeat first [rewrite lookup_insert_eq | rewrite lookup_insert_ne by done
               | rewrite lookup_empty].

(** The number fields of a record [holding_record code name shares cost]
    read back as given. *)
Lemma holding_record_fields (py : builtins) (code name : string) (shares cost : float) :
  getitem (holding_record code name shares cost) "code" = Ok (VStr code) /\
  dict_get (holding_record code name shares cost) "shares" (VInt 0) ≫= py_float py
    = Ok shares /\
  dict_get (holding_record code name shares cost) "cost" (VInt 0) ≫= py_float py
    = Ok cost.
Proof. unfold holding_record, holding_fields, getitem, dict_get. by literal_lookup. Qed.

(** The view built when there is no quote. *)
Lemma compute_fund_view_offline (py : builtins) (h : gmap string pyval) (code : pyval)
    (shares cost : float) :
  h !! "code" = Some code ->
  dict_get (VDict h) "shares" (VInt 0) ≫= py_float py = Ok shares ->
  dict_get (VDict h) "cost" (VInt 0) ≫= py_float py = Ok cost ->
  compute_fund_view py (VDict h) VNone
  = Ok (view_record code (holding_name py h code) shares cost cost cost (VInt 0)
          (shares * cost) ((cost - cost) * shares) ((cost - cost) * shares)
          (VStr "--") (VStr "offline")).
Proof.
  intros Hcode Hshares Hcost. unfold compute_fund_view. cbn [getitem]. rewrite Hcode.
  cbn [mbind result_bind dict_get] in *. by rewrite Hshares, Hcost.
Qed.

(** The view built from a quote of an adapter. *)
Lemma compute_fund_view_quoted (py : builtins) (h : gmap string pyval) (code : pyval)
    (shares cost : float) (source name update_time : pyval) (gsz dwjz gszzl : float) :
  h !! "code" = Some code ->
  dict_get (VDict h) "shares" (VInt 0) ≫= py_float py = Ok shares ->
  dict_get (VDict h) "cost" (VInt 0) ≫= py_float py = Ok cost ->
  compute_fund_view py (VDict h) (quote source name gsz dwjz gszzl update_time)
  = Ok (view_record code (py_or name (holding_name py h code)) shares cost gsz dwjz
          (VFloat gszzl) (shares * gsz) ((gsz - dwjz) * shares) ((gsz - cost) * shares)
          (format_update_time update_time) source).
Proof.
  intros Hcode Hshares Hcost.
  unfold compute_fund_view. rewrite truthy_quote. cbn [getitem]. rewrite Hcode.
  cbn [mbind result_bind dict_get] in *. rewrite Hshares, Hcost.
  unfold quote. cbn [mbind result_bind dict_get]. by literal_lookup.
Qed.

(** C4 (counterexample): a holding with 100 shares and an infinite cost has
    shares > 0 and cost > 0, and its offline view has a day profit that is
    not a number, so it does not equal zero. *)
Lemma offline_view_infinite_cost :
  ~ (forall (py : builtins) (h : gmap string pyval) (shares cost : float) (view : pyval),
       dict_get (VDict h) "shares" (VInt 0) ≫= py_float py = Ok shares ->
       dict_get (VDict h) "cost" (VInt 0) ≫= py_float py = Ok cost ->
       (0 <? shares)%float = true -> (0 <? cost)%float = true ->
       compute_fund_view py (VDict h) VNone = Ok view ->
       exists day_profit,
         getitem view "day_profit" = Ok (VFloat day_profit) /\
         (day_profit =? 0)%float = true).
Proof.
  intros H.
  edestruct (H demo_builtins
 (holding_fields "000001" "X" 100 infinity)
               100%float infinity)
    as (day_profit & Hget & Hzero); [reflexivity .. |].
  vm_compute in Hget. injection Hget as <-. discriminate Hzero.
Qed.

(** An infinite number of shares breaks the zero profits in the same way. *)
Lemma offline_view_infinite_shares :
  compute_fund_view demo_builtins (holding_record "000001" "X" infinity 1.5) VNone
    ≫= (fun view => getitem view "day_profit")
  = Ok (VFloat nan).
Proof. reflexivity. Qed.

(** C4 (amended): for every holding with finite shares > 0 and finite
    cost > 0, when both providers are unavailable (at any time) the resolver
    returns no quote, and the view has estimate = last net value = cost,
    percent change 0, day profit 0, total profit 0, market value
    shares * cost, source "offline" and update time "--". *)
Theorem offline_view (py : builtins) (w : world) (s s1 s2 : state)
    (h : gmap string pyval) (code : pyval) (shares cost : float) :
  fetch_from_eastmoney py code w s = (Ok VNone, s1) ->
  fetch_from_sina py code w s1 = (Ok VNone, s2) ->
  h !! "code" = Some code ->
  dict_get (VDict h) "shares" (VInt 0) ≫= py_float py = Ok shares ->
  dict_get (VDict h) "cost" (VInt 0) ≫= py_float py = Ok cost ->
  (0 <? shares)%float = true -> is_finite shares = true ->
  (0 <? cost)%float = true -> is_finite cost = true ->
  get_best_data py code w s = (Ok VNone, s2) /\
  exists view,
    compute_fund_view py (VDict h) VNone = Ok view /\
    getitem view "gsz" = Ok (VFloat cost) /\
    getitem view "dwjz" = Ok (VFloat cost) /\
    getitem view "gszzl" = Ok (VInt 0) /\
    getitem view "day_profit" = Ok (VFloat 0) /\
    getitem view "total_profit" = Ok (VFloat 0) /\
    getitem view "market_value" = Ok (VFloat (shares * cost)) /\
    getitem view "source" = Ok (VStr "offline") /\
    getitem view "update_time" = Ok (VStr "--").
Proof.
  intros He Hs Hcode Hshares Hcost Hpos Hfin _ Hfinc. split.
  - rewrite get_best_data_run. cbv zeta. rewrite He, Hs. cbn.
    rewrite andb_false_r. by destruct (5 <=? _).
  - rewrite (compute_fund_view_offline py h code shares cost Hcode Hshares Hcost).
    rewrite (sub_diag_finite cost Hfinc), (mul_zero_positive shares Hfin Hpos).
    eexists. split; [reflexivity |]. unfold view_record, getitem. by literal_lookup.
Qed.

Lemma offline_view_witness :
  let w := fixed_world 2 10 RequestFailed RequestFailed in
  let s2 := sent Sina "000001" (sent Eastmoney "000001" (fresh NoFile)) in
  get_best_data demo_builtins (VStr "000001") w (fresh NoFile) = (Ok VNone, s2) /\
  exists view,
    compute_fund_view demo_builtins (holding_record "000001" "X" 100 1.5) VNone
      = Ok view /\
    getitem view "gsz" = Ok (VFloat 1.5) /\
    getitem view "dwjz" = Ok (VFloat 1.5) /\
    getitem view "gszzl" = Ok (VInt 0) /\
    getitem view "day_profit" = Ok (VFloat 0) /\
    getitem view "total_profit" = Ok (VFloat 0) /\
    getitem view "market_value" = Ok (VFloat (100 * 1.5)) /\
    getitem view "source" = Ok (VStr "offline") /\
    getitem view "update_time" = Ok (VStr "--").
Proof.
  intros w s2.
  apply (offline_view demo_builtins w (fresh NoFile)
           (sent Eastmoney "000001" (fresh NoFile)) s2
           (holding_fields "000001" "X" 100 1.5) (VStr "000001") 100 1.5);
    reflexivity.
Defined.

(** C5 (counterexample): a holding whose name is empty and a quote whose name
    is empty give a view named by the generated placeholder, not by the
    (empty) name of the holding. *)
Lemma quoted_view_name_placeholder :
  ~ (forall (py : builtins) (h : gmap string pyval) (view : pyval)
            (source name update_time : pyval) (gsz dwjz gszzl : float),
       compute_fund_view py (VDict h) (quote source name gsz dwjz gszzl update_time)
         = Ok view ->
       getitem view "name" = Ok (py_or name (default VNone (h !! "name")))).
Proof.
  intros H.
  specialize (H demo_builtins
                (holding_fields "000001" "" 100 1.5)
                _ (VStr "sina") (VStr "") (VStr "2024-01-05")
                1.5%float 1.25%float 20%float eq_refl).
  vm_compute in H. discriminate H.
Qed.

(** C5 (amended): for every holding and every quote, the view takes its
    estimate, last net value, percent change and source from the quote; its
    name is the quote's name, or else the holding's name, or else, when both
    are empty or missing, the placeholder made of the code; its update time
    is the quote's timestamp, or "--" when that is empty; and
    market value = shares * estimate,
    day profit = (estimate - last net value) * shares,
    total profit = (estimate - cost) * shares. *)
Theorem quoted_view (py : builtins) (h : gmap string pyval) (code : pyval)
    (shares cost : float) (source name update_time : pyval) (gsz dwjz gszzl : float) :
  h !! "code" = Some code ->
  dict_get (VDict h) "shares" (VInt 0) ≫= py_float py = Ok shares ->
  dict_get (VDict h) "cost" (VInt 0) ≫= py_float py = Ok cost ->
  exists view,
    compute_fund_view py (VDict h) (quote source name gsz dwjz gszzl update_time)
      = Ok view /\
    getitem view "gsz" = Ok (VFloat gsz) /\
    getitem view "dwjz" = Ok (VFloat dwjz) /\
    getitem view "gszzl" = Ok (VFloat gszzl) /\
    getitem view "source" = Ok source /\
    getitem view "name"
      = Ok (py_or name (py_or (default VNone (h !! "name"))
                              (VStr ("基金" +:+ py_str py code)))) /\
    getitem view "update_time"
      = Ok (if truthy update_time then update_time else VStr "--") /\
    getitem view "market_value" = Ok (VFloat (shares * gsz)) /\
    getitem view "day_profit" = Ok (VFloat ((gsz - dwjz) * shares)) /\
    getitem view "total_profit" = Ok (VFloat ((gsz - cost) * shares)).
Proof.
  intros Hcode Hshares Hcost.
  rewrite (compute_fund_view_quoted py h code shares cost source name update_time
             gsz dwjz gszzl Hcode Hshares Hcost).
  eexists. split; [reflexivity |]. unfold view_record, getitem. literal_lookup.
  unfold format_update_time, holding_name. by destruct (truthy update_time).
Qed.

Lemma quoted_view_witness :
  exists view,
    compute_fund_view demo_builtins (holding_record "000001" "" 100 1.5)
      (quote (VStr "sina") (VStr "") 1.5 1.25 20 (VStr "")) = Ok view /\
    getitem view "gsz" = Ok (VFloat 1.5) /\
    getitem view "dwjz" = Ok (VFloat 1.25) /\
    getitem view "gszzl" = Ok (VFloat 20) /\
    getitem view "source" = Ok (VStr "sina") /\
    getitem view "name" = Ok (VStr "基金000001") /\
    getitem view "update_time" = Ok (VStr "--") /\
    getitem view "market_value" = Ok (VFloat 150) /\
    getitem view "day_profit" = Ok (VFloat 25) /\
    getitem view "total_profit" = Ok (VFloat 0).
Proof.
  apply (quoted_view demo_builtins (holding_fields "000001" "" 100 1.5)
           (VStr "000001") 100 1.5 (VStr "sina") (VStr "") (VStr "") 1.5 1.25 20);
    reflexivity.
Defined.

(** C10 (counterexample): with an infinite cost, a quote that lacks both
    numeric fields gives a day profit that is not a number. *)
Lemma partial_quote_infinite_cost :
  ~ (forall (py : builtins) (h q : gmap string pyval) (view : pyval),
       truthy (VDict q) = true ->
       q !! "gsz" = None -> q !! "dwjz" = None ->
       compute_fund_view py (VDict h) (VDict q) = Ok view ->
       exists day_profit,
         getitem view "day_profit" = Ok (VFloat day_profit) /\
         (day_profit =? 0)%float = true).
Proof.
  intros H.
  edestruct (H demo_builtins (holding_fields "000001" "X" 100 infinity)
               (<["source" := VStr "sina"]> ∅))
    as (day_profit & Hget & Hzero); [reflexivity .. |].
  vm_compute in Hget. injection Hget as <-. discriminate Hzero.
Qed.

(** C10 (amended): when a quote is present (a non-empty dictionary), a missing
    estimate and a missing last net value default to the cost of the holding,
    a missing percent change to 0 and a missing source to "unknown"; for a
    holding with finite shares and cost, a quote missing both numeric fields
    yields a day profit and a total profit equal to zero, and the source of
    the view is still the one of the quote. *)
Theorem partial_quote_view (py : builtins) (h q : gmap string pyval) (code : pyval)
    (shares cost gsz dwjz gszzl : float) :
  h !! "code" = Some code ->
  dict_get (VDict h) "shares" (VInt 0) ≫= py_float py = Ok shares ->
  dict_get (VDict h) "cost" (VInt 0) ≫= py_float py = Ok cost ->
  truthy (VDict q) = true ->
  dict_get (VDict q) "gsz" (VFloat cost) ≫= py_float py = Ok gsz ->
  dict_get (VDict q) "dwjz" (VFloat cost) ≫= py_float py = Ok dwjz ->
  dict_get (VDict q) "gszzl" (VInt 0) ≫= py_float py = Ok gszzl ->
  exists view day_profit total_profit,
    compute_fund_view py (VDict h) (VDict q) = Ok view /\
    getitem view "gsz" = Ok (VFloat gsz) /\
    getitem view "dwjz" = Ok (VFloat dwjz) /\
    getitem view "gszzl" = Ok (VFloat gszzl) /\
    getitem view "source" = Ok (default (VStr "unknown") (q !! "source")) /\
    getitem view "day_profit" = Ok (VFloat day_profit) /\
    getitem view "total_profit" = Ok (VFloat total_profit) /\
    (q !! "gsz" = None -> gsz = cost) /\
    (q !! "dwjz" = None -> dwjz = cost) /\
    (q !! "gszzl" = None -> gszzl = 0%float) /\
    (q !! "gsz" = None -> q !! "dwjz" = None ->
     is_finite shares = true -> is_finite cost = true ->
     (day_profit =? 0)%float = true /\ (total_profit =? 0)%float = true).
Proof.
  intros Hcode Hshares Hcost Hq Hgsz Hdwjz Hgszzl.
  unfold compute_fund_view. rewrite Hq. cbn [getitem]. rewrite Hcode.
  cbn [mbind result_bind] in *. rewrite Hshares, Hcost.
  cbn [mbind result_bind]. rewrite Hgsz, Hdwjz, Hgszzl.
  cbn. do 3 eexists. split; [reflexivity |]. literal_lookup.
  cbn [dict_get] in Hgsz, Hdwjz, Hgszzl.
  split_and!; try done.
  - intros E. rewrite E in Hgsz. cbn in Hgsz. congruence.
  - intros E. rewrite E in Hdwjz. cbn in Hdwjz. congruence.
  - intros E. rewrite E in Hgszzl. vm_compute in Hgszzl. congruence.
  - intros Eg Ed Hfs Hfc. rewrite Eg, Ed in *. cbn in Hgsz, Hdwjz. simplify_eq.
    rewrite (sub_diag_finite _ Hfc). split; by apply mul_zero_finite.
Qed.

Lemma partial_quote_view_witness :
  exists view day_profit total_profit,
    compute_fund_view demo_builtins (holding_record "000001" "X" 100 1.5)
      (VDict (<["name" := VStr "Y"]> ∅)) = Ok view /\
    getitem view "gsz" = Ok (VFloat 1.5) /\
    getitem view "dwjz" = Ok (VFloat 1.5) /\
    getitem view "gszzl" = Ok (VFloat 0) /\
    getitem view "source" = Ok (VStr "unknown") /\
    getitem view "day_profit" = Ok (VFloat day_profit) /\
    getitem view "total_profit" = Ok (VFloat total_profit) /\
    (day_profit =? 0)%float = true /\ (total_profit =? 0)%float = true.
Proof.
  destruct (partial_quote_view demo_builtins (holding_fields "000001" "X" 100 1.5)
              (<["name" := VStr "Y"]> ∅) (VStr "000001") 100 1.5 1.5 1.5 0)
    as (view & day_profit & total_profit & Hview & Hg & Hd & Hz & Hs & Hdp & Htp
        & _ & _ & _ & Hzero); [reflexivity .. |].
  exists view, day_profit, total_profit.
  repeat split; try assumption; apply Hzero; reflexivity.
Defined.

(** ** The derived percent change *)

(** C6: for every response of the second provider whose record has at least
    five fields with a numeric estimate and a numeric last net value, the
    adapter returns a quote (no exception, no division by zero) whose percent
    change is (estimate - last net value) / last net value * 100, and exactly
    0 when the last net value equals zero. *)
Theorem fetch_from_sina_percent (py : builtins) (code : pyval) (w : world) (s : state)
    (r : response) (group1 f0 f1 f2 f3 f4 : string) (more : list string)
    (gsz dwjz : float) :
  network w (length (requests s)) Sina (py_str py code) = Received r ->
  re_search (String "=" (String dquote "")) (String dquote "") (decoded r)
    = Some group1 ->
  split_comma group1 = f0 :: f1 :: f2 :: f3 :: f4 :: more ->
  float_of_str py f1 = Some gsz ->
  float_of_str py f3 = Some dwjz ->
  fetch_from_sina py code w s =
  (Ok (quote (VStr "sina") (VStr f0) gsz dwjz
         (if (dwjz =? 0)%float then 0 else (gsz - dwjz) / dwjz * 100)%float
         (VStr f4)),
   sent Sina (py_str py code) s).
Proof.
  intros Hnet Hre Hsplit Hg Hd. unfold fetch_from_sina. run.
  rewrite Hnet, Hre, Hsplit. cbn. rewrite Hg. cbn. rewrite Hd. cbn.
  unfold py_truediv. by destruct (dwjz =? 0)%float.
Qed.

Lemma fetch_from_sina_percent_witness :
  fetch_from_sina demo_builtins (VStr "000001")
    (fixed_world 0 10 RequestFailed sina_zero_record) (fresh NoFile)
  = (Ok (quote (VStr "sina") (VStr "X") 1.5 0 0 (VStr "2024-01-05")),
     sent Sina "000001" (fresh NoFile)).
Proof.
  apply (fetch_from_sina_percent demo_builtins (VStr "000001")
           (fixed_world 0 10 RequestFailed sina_zero_record) (fresh NoFile)
           {| text := "var hq_str_f_000001=" +:+
                      String dquote ("X,1.5,0,0,2024-01-05" +:+ String dquote ";");
              content_gbk := Some ("var hq_str_f_000001=" +:+
                      String dquote ("X,1.5,0,0,2024-01-05" +:+ String dquote ";")) |}
           "X,1.5,0,0,2024-01-05" "X" "1.5" "0" "0" "2024-01-05" [] 1.5 0);
    reflexivity.
Defined.

(** On the record with last net value 1.25 the percent change is computed
    by the formula. *)
Example fetch_from_sina_percent_nonzero :
  fst (fetch_from_sina demo_builtins (VStr "000001")
         (fixed_world 0 10 RequestFailed sina_record) (fresh NoFile))
  = Ok (quote (VStr "sina") (VStr "X") 1.5 1.25 ((1.5 - 1.25) / 1.25 * 100)
          (VStr "2024-01-05")).
Proof. reflexivity. Qed.

(** ** Aggregation *)

Section Aggregation.
Context (py : builtins).

Lemma sum_field_snoc (k : string) (views : list pyval) (view total : pyval) :
  sum_field py k views = Ok total ->
  sum_field py k (views ++ [view]) = getitem view k ≫= py_add py total.
Proof.
  unfold sum_field. rewrite foldl_app. cbn. by intros ->.
Qed.

(** The loop keeps each total equal to the sum of its field over the views
    collected so far. *)
Lemma valuations_loop_totals (holdings : list pyval) :
  forall (data : list pyval) (t : totals) (w : world) (s s' : state)
         (data' : list pyval) (t' : totals),
    valuations_loop py holdings data t w s = (Ok (data', t'), s') ->
    sum_field py "market_value" data = Ok (total_market t) ->
    sum_field py "day_profit" data = Ok (total_day t) ->
    sum_field py "total_profit" data = Ok (total_profit t) ->
    sum_field py "market_value" data' = Ok (total_market t') /\
    sum_field py "day_profit" data' = Ok (total_day t') /\
    sum_field py "total_profit" data' = Ok (total_profit t') /\
    length data' = (length data + length holdings)%nat.
Proof.
  induction holdings as [| holding rest IH]; intros data t w s s' data' t' Hrun Hm Hd Hp.
  - cbn in Hrun. injection Hrun as <- <- <-. rewrite Nat.add_0_r. by split_and!.
  - cbn [valuations_loop] in Hrun.
    rewrite bind_run, lift_run in Hrun.
    destruct (getitem holding "code") as [code |]; [| done].
    rewrite bind_run in Hrun.
    destruct (get_best_data py code w s) as [[remote |] s1]; [| done].
    rewrite bind_run, lift_run in Hrun.
    destruct (compute_fund_view py holding remote) as [view |]; [| done].
    rewrite bind_run, lift_run in Hrun.
    destruct (getitem view "market_value" ≫= py_add py (total_market t))
      as [market |] eqn:Em; [| done].
    rewrite bind_run, lift_run in Hrun.
    destruct (getitem view "day_profit" ≫= py_add py (total_day t))
      as [day |] eqn:Ed; [| done].
    rewrite bind_run, lift_run in Hrun.
    destruct (getitem view "total_profit" ≫= py_add py (total_profit t))
      as [profit |] eqn:Ep; [| done].
    apply IH in Hrun; cbn [total_market total_day total_profit].
    + rewrite length_app in Hrun. cbn in *.
      destruct Hrun as (? & ? & ? & ->). split_and!; try done. lia.
    + by rewrite (sum_field_snoc _ _ _ _ Hm).
    + by rewrite (sum_field_snoc _ _ _ _ Hd).
    + by rewrite (sum_field_snoc _ _ _ _ Hp).
Qed.

End Aggregation.

Section Totality.
Context (py : builtins).

Lemma py_add_running_total (total : pyval) (x : float) :
  running_total total ->
  exists f, py_add py total (VFloat x) = Ok (VFloat f).
Proof. intros [-> | [f ->]]; cbn; eauto. Qed.

(** The resolver returns [None] or a quote whenever the first adapter does
    not raise. *)
Lemma get_best_data_value (code : pyval) (w : world) (s : state) :
  raises (fst (fetch_from_eastmoney py code w s)) = false ->
  exists remote s',
    get_best_data py code w s = (Ok remote, s') /\
    (remote = VNone \/
     exists source name gsz dwjz gszzl update_time,
       remote = quote source name gsz dwjz gszzl update_time).
Proof.
  intros Hok. rewrite get_best_data_run. cbv zeta.
  destruct (fetch_from_eastmoney py code w s) as [[eastmoney | e] s1] eqn:He; [| done].
  assert (eastmoney = VNone \/
          exists source name gsz dwjz gszzl update_time,
            eastmoney = quote source name gsz dwjz gszzl update_time) as Hev.
  { destruct (fetch_from_eastmoney_value _ _ _ _ _ _ He)
      as [-> | (? & ? & ? & ? & ? & ->)]; eauto 10. }
  destruct (_ && truthy eastmoney); [eauto |].
  destruct (fetch_from_sina_returns py code w s1) as (sina & -> & Hsv).
  assert (sina = VNone \/
          exists source name gsz dwjz gszzl update_time,
            sina = quote source name gsz dwjz gszzl update_time) as Hsv'.
  { destruct Hsv as [-> | (? & ? & ? & ? & ? & ->)]; eauto 10. }
  do 2 eexists. split; [reflexivity |].
  unfold py_or. by repeat case_match.
Qed.

(** The view of a readable record is built without exception, from no quote
    and from a quote alike, and its three amounts are floats. *)
Lemma compute_fund_view_returns (item remote : pyval) :
  readable py item ->
  (remote = VNone \/
   exists source name gsz dwjz gszzl update_time,
     remote = quote source name gsz dwjz gszzl update_time) ->
  exists view market day profit,
    compute_fund_view py item remote = Ok view /\
    getitem view "market_value" = Ok (VFloat market) /\
    getitem view "day_profit" = Ok (VFloat day) /\
    getitem view "total_profit" = Ok (VFloat profit).
Proof.
  intros (h & code & shares & cost & -> & Hcode & Hshares & Hcost) Hremote.
  destruct Hremote as [-> | (source & name & gsz & dwjz & gszzl & update_time & ->)].
  - rewrite (compute_fund_view_offline py h code shares cost Hcode Hshares Hcost).
    do 4 eexists. split; [reflexivity |]. unfold view_record, getitem. by literal_lookup.
  - rewrite (compute_fund_view_quoted py h code shares cost source name update_time
               gsz dwjz gszzl Hcode Hshares Hcost).
    do 4 eexists. split; [reflexivity |]. unfold view_record, getitem. by literal_lookup.
Qed.

(** The loop of the valuation route ends without exception on readable
    records, in a world where the first adapter does not raise. *)
Lemma valuations_loop_returns (w : world) (holdings : list pyval) :
  Forall (readable py) holdings ->
  (forall code s, raises (fst (fetch_from_eastmoney py code w s)) = false) ->
  forall (data : list pyval) (t : totals) (s : state),
    running_total (total_market t) -> running_total (total_day t) ->
    running_total (total_profit t) ->
    exists data' t' s', valuations_loop py holdings data t w s = (Ok (data', t'), s').
Proof.
  intros Hrecords Hnet.
  induction Hrecords as [| item rest Hitem _ IH]; intros data t s Hm Hd Hp.
  - by do 3 eexists.
  - cbn [valuations_loop]. rewrite bind_run, lift_run.
    pose proof Hitem as (h & code & shares & cost & -> & Hcode & _).
    cbn [getitem]. rewrite Hcode. rewrite bind_run.
    destruct (get_best_data_value code w s (Hnet code s)) as (remote & s1 & -> & Hremote).
    rewrite bind_run, lift_run.
    destruct (compute_fund_view_returns _ remote Hitem Hremote)
      as (view & market & day & profit & -> & -> & -> & ->).
    destruct (py_add_running_total _ market Hm) as [m Em].
    destruct (py_add_running_total _ day Hd) as [d Ed].
    destruct (py_add_running_total _ profit Hp) as [p Ep].
    rewrite bind_run, lift_run. cbn [mbind result_bind]. rewrite Em.
    rewrite bind_run, lift_run. cbn [mbind result_bind]. rewrite Ed.
    rewrite bind_run, lift_run. cbn [mbind result_bind]. rewrite Ep.
    apply IH; cbn; right; eauto.
Qed.

(** The valuation route answers, with status 200, whenever the holdings file
    loads, its records are readable and the first adapter does not raise. *)
Lemma get_valuations_returns (w : world) (s : state) :
  raises (fst (load_holdings w s)) = false ->
  Forall (readable py) (stored_holdings (config_file s)) ->
  (forall code s, raises (fst (fetch_from_eastmoney py code w s)) = false) ->
  exists body s', get_valuations py w s = (Ok (body, 200), s').
Proof.
  intros Hload Hrecords Hnet. unfold get_valuations. rewrite bind_run.
  rewrite (load_holdings_returns w s Hload).
  destruct (valuations_loop_returns w _ Hrecords Hnet []
              {| total_market := VInt 0; total_day := VInt 0; total_profit := VInt 0 |} s)
    as (data & t & s1 & Hloop); [by left ..|].
  rewrite bind_run, Hloop. by do 2 eexists.
Qed.

End Totality.

(** C7: whenever the valuation route answers, its summary holds, for each of
    the three totals, the sum over all the views of its data of the
    corresponding field (market value, day profit, total profit), accumulated
    in list order from 0. *)
Theorem get_valuations_totals (py : builtins) (w : world) (s s' : state)
    (body : pyval) (status : Z) :
  get_valuations py w s = (Ok (body, status), s') ->
  exists data summary market day profit,
    getitem body "data" = Ok (VList data) /\
    getitem body "summary" = Ok summary /\
    getitem summary "total_market_value" = Ok market /\
    sum_field py "market_value" data = Ok market /\
    getitem summary "total_day_profit" = Ok day /\
    sum_field py "day_profit" data = Ok day /\
    getitem summary "total_hold_profit" = Ok profit /\
    sum_field py "total_profit" data = Ok profit.
Proof.
  unfold get_valuations. rewrite bind_run.
  destruct (load_holdings w s) as [[holdings | e] s0] eqn:Eload; [| done].
  rewrite bind_run.
  destruct (valuations_loop _ _ _ _ _ _) as [[[data t] | e] s1] eqn:Eloop; [| done].
  intros [= <- _ _].
  apply valuations_loop_totals in Eloop as (Hm & Hd & Hp & _); [| done ..].
  exists data, (summary_of t (strftime_now w (length (requests s1)))),
    (total_market t), (total_day t), (total_profit t).
  unfold summary_of, getitem. by literal_lookup.
Qed.

Lemma get_valuations_totals_witness :
  let w := fixed_world 0 20 RequestFailed sina_record in
  exists body s',
    get_valuations demo_builtins w (fresh two_holdings) = (Ok (body, 200), s') /\
    exists data summary market day profit,
      getitem body "data" = Ok (VList data) /\
      getitem body "summary" = Ok summary /\
      getitem summary "total_market_value" = Ok market /\
      sum_field demo_builtins "market_value" data = Ok market /\
      getitem summary "total_day_profit" = Ok day /\
      sum_field demo_builtins "day_profit" data = Ok day /\
      getitem summary "total_hold_profit" = Ok profit /\
      sum_field demo_builtins "total_profit" data = Ok profit.
Proof.
  intros w. do 2 eexists. split; [vm_compute; reflexivity |].
  eapply (get_valuations_totals demo_builtins w (fresh two_holdings)).
  vm_compute. reflexivity.
Defined.

(** On the two holdings, quoted at 1.5 with last net value 1.25, the totals
    are 165, 27.5 and 2.5. *)
Example get_valuations_two_holdings :
  fst (get_valuations demo_builtins (fixed_world 0 20 RequestFailed sina_record)
         (fresh two_holdings))
    ≫= (fun '(body, _) => getitem body "summary")
  = Ok (summary_of {| total_market := VFloat 165; total_day := VFloat 27.5;
                      total_profit := VFloat 2.5 |} "12:00:00").
Proof. vm_compute. reflexivity. Qed.

(** With no holdings the totals stay the integer 0. *)
Example get_valuations_empty :
  fst (get_valuations demo_builtins (fixed_world 0 20 RequestFailed sina_record)
         (fresh NoFile))
    ≫= (fun '(body, _) => getitem body "summary")
  = Ok (summary_of {| total_market := VInt 0; total_day := VInt 0;
                      total_profit := VInt 0 |} "12:00:00").
Proof. vm_compute. reflexivity. Qed.

(** ** The holdings routes *)

Section HoldingsFacts.
Context (py : builtins).

Lemma has_code_getitem (code : string) (item c : pyval) :
  getitem item "code" = Ok c -> has_code code item = eq_str c code.
Proof.
  unfold getitem, has_code, code_of. destruct item; try done.
  destruct (d !! "code"); [| done]. by intros [= ->].
Qed.

Lemma getitem_code_of (item : pyval) :
  is_Some (code_of item) -> exists c, getitem item "code" = Ok c /\ code_of item = Some c.
Proof.
  intros [c Hc]. exists c. unfold getitem, code_of in *.
  destruct item; try done. by rewrite Hc.
Qed.

(** The comprehension of [delete_fund] keeps the records with another code,
    in order. *)
Lemma other_codes_filter (code : string) (holdings : list pyval) :
  Forall (fun item => is_Some (code_of item)) holdings ->
  other_codes code holdings
  = Ok (List.filter (fun item => negb (has_code code item)) holdings).
Proof.
  induction 1 as [| item rest Hitem _ IH]; [done |].
  destruct (getitem_code_of item Hitem) as (c & Hget & _).
  cbn [other_codes List.filter]. rewrite Hget, IH. cbn.
  by rewrite (has_code_getitem code item c Hget).
Qed.

Lemma filter_no_code (code : string) (holdings : list pyval) :
  Forall (fun item => has_code code item = false) holdings ->
  List.filter (fun item => negb (has_code code item)) holdings = holdings.
Proof.
  induction 1 as [| item rest Hitem _ IH]; [done |].
  cbn. by rewrite Hitem, IH.
Qed.

End HoldingsFacts.


(** What the failed write leaves: the route raised and the holdings are
    lost, the next load gives the empty list. *)
Example delete_fund_truncates :
  let w := failing_dump OSError (fixed_world 0 10 RequestFailed RequestFailed) in
  let after := delete_fund demo_builtins (delete_request "000001") w (fresh two_holdings) in
  fst after = Raise OSError /\
  config_file (snd after) = truncated /\
  fst (load_holdings w (snd after)) = Ok [].
Proof. by vm_compute. Qed.


Lemma two_holdings_records :
  Forall (fun item => is_Some (code_of item)) (stored_holdings two_holdings).
Proof. repeat constructor; by eexists. Qed.



Section UpsertFacts.
Context (py : builtins) (code : string) (shares cost : float) (name : string).

Lemma has_code_true (item : pyval) :
  has_code code item = true <-> code_of item = Some (VStr code).
Proof.
  unfold has_code. destruct (code_of item) as [v |]; [| done].
  destruct v; cbn; try done.
  split.
  - by intros ->%String.eqb_eq.
  - intros [= ->]. apply String.eqb_refl.
Qed.

(** Rewriting a record keeps its code. *)
Lemma code_of_rewritten (d : gmap string pyval) :
  code_of (VDict (rewritten shares cost name d)) = code_of (VDict d).
Proof.
  unfold rewritten, code_of. destruct (truthy (VStr name));
    by repeat rewrite lookup_insert_ne by done.
Qed.


End UpsertFacts.

Lemma rewritten_lookup (shares cost : float) (name : string) (d : gmap string pyval) :
  rewritten shares cost name d !! "shares" = Some (VFloat shares) /\
  rewritten shares cost name d !! "cost" = Some (VFloat cost) /\
  rewritten shares cost name d !! "name"
    = (if String.eqb name "" then d !! "name" else Some (VStr name)) /\
  (forall k : string, k <> "shares" -> k <> "cost" -> k <> "name" ->
     rewritten shares cost name d !! k = d !! k).
Proof.
  unfold rewritten, truthy. destruct (String.eqb name ""); cbn; split_and!; try done;
    intros; by literal_lookup.
Qed.

Lemma code_of_new_holding (code : string) (shares cost : float) (name : string) :
  code_of (new_holding code shares cost name) = Some (VStr code).
Proof. done. Qed.


(** What the failed write leaves: the route raised, the new record is not
    stored and the records of the file are lost. *)
Example add_fund_truncates :
  let w := failing_dump OSError (fixed_world 0 10 RequestFailed RequestFailed) in
  let after := add_fund demo_builtins (add_request "000003" 1.5 1.25) w
                 (fresh two_holdings) in
  fst after = Raise OSError /\
  config_file (snd after) = truncated /\
  fst (load_holdings w (snd after)) = Ok [].
Proof. by vm_compute. Qed.



(** * Further properties *)

(** ** Further properties of the text processing *)

Lemma occurs_append (c : ascii) (s t : string) :
  occurs c (s +:+ t) = occurs c s || occurs c t.
Proof. induction s as [| a s IH]; simpl; [done |]. by rewrite IH, orb_assoc. Qed.

Lemma split_comma_not_nil (s : string) : split_comma s <> [].
Proof.
  induction s as [| c s IH]; cbn; [done |].
  destruct (Ascii.eqb c ","); [done |]. by destruct (split_comma s).
Qed.

(** The fields of a split contain no comma, and no character that the text
    does not contain. *)
Lemma split_comma_fields_occurs (s : string) :
  Forall (fun f => occurs ","%char f = false /\
                   forall c, occurs c f = true -> occurs c s = true) (split_comma s).
Proof.
  induction s as [| a s IH]; cbn.
  - constructor; [| constructor]. by split.
  - destruct (Ascii.eqb a ",") eqn:Ea.
    + constructor; [by split |].
      eapply Forall_impl; [exact IH |]. cbn. intros f [Hf Hc]. split; [done |].
      intros c Hin. rewrite (Hc c Hin). apply orb_true_r.
    + destruct (split_comma s) as [| f fs] eqn:Es; [by destruct (split_comma_not_nil s) |].
      apply Forall_cons in IH as [[Hf Hc] IH].
      constructor.
      * cbn. rewrite Ea, Hf. split; [done |].
        intros c [Hc1 | Hc2]%orb_true_iff; rewrite ?Hc1; [done |].
        rewrite (Hc c Hc2). apply orb_true_r.
      * eapply Forall_impl; [exact IH |]. cbn. intros g [Hg Hcg]. split; [done |].
        intros c Hin. rewrite (Hcg c Hin). apply orb_true_r.
Qed.

(** X20: splitting a text at its commas and joining the fields with commas
    gives the text back: the fields of a record lose nothing of it. *)
Theorem join_split_comma (s : string) : join_comma (split_comma s) = s.
Proof.
  induction s as [| a s IH]; [done |]. cbn [split_comma].
  destruct (Ascii.eqb a ",") eqn:Ea.
  - apply Ascii.eqb_eq in Ea as ->.
    destruct (split_comma s) as [| f fs] eqn:Es; [by destruct (split_comma_not_nil s) |].
    cbn [join_comma]. cbn. by rewrite <- IH.
  - destruct (split_comma s) as [| f fs] eqn:Es; [by destruct (split_comma_not_nil s) |].
    rewrite <- IH. by destruct fs.
Qed.

(** The lazy group before a double quote has no double quote and no
    newline. *)
Lemma lazy_group_dquote (s g : string) :
  lazy_group (String dquote "") s = Some g ->
  occurs dquote g = false /\ occurs newline g = false.
Proof.
  revert g. induction s as [| a s IH]; intros g; cbn [lazy_group String.prefix].
  - done.
  - destruct (ascii_dec dquote a) as [<- | Hq].
    + destruct s; cbn [String.prefix]; by intros [= <-].
    + destruct (Ascii.eqb a newline) eqn:En; [done |].
      destruct (lazy_group _ s) as [g' |] eqn:Eg; [| done].
      intros [= <-]. destruct (IH g' eq_refl) as [H1 H2]. cbn [occurs].
      rewrite H1, H2, En. split; [| done].
      apply orb_false_iff. split; [| done]. apply Ascii.eqb_neq. congruence.
Qed.

Lemma re_search_lazy_group (pre suf s g : string) :
  re_search pre suf s = Some g -> exists rest, lazy_group suf rest = Some g.
Proof.
  induction s as [| a s IH]; cbn [re_search].
  - destruct (String.prefix pre ""); [| done].
    destruct (lazy_group suf _) eqn:E; [| done]. intros [= <-]. eauto.
  - destruct (String.prefix pre (String a s)).
    + destruct (lazy_group suf _) eqn:E; [intros [= <-]; eauto | done].
    + done.
Qed.

(** ** Further properties of the adapters *)

Lemma sina_group_fields (content g : string) :
  re_search (String "=" (String dquote "")) (String dquote "") content = Some g ->
  Forall (fun f => plain_text f) (split_comma g).
Proof.
  intros Hre. apply re_search_lazy_group in Hre as [rest Hg].
  apply lazy_group_dquote in Hg as [Hq Hn].
  eapply Forall_impl; [apply split_comma_fields_occurs |]. cbn.
  intros f [Hc Hsub]. split_and!; [done | |].
  - destruct (occurs dquote f) eqn:E; [| done]. by rewrite (Hsub _ E) in Hq.
  - destruct (occurs newline f) eqn:E; [| done]. by rewrite (Hsub _ E) in Hn.
Qed.

(** What [fetch_from_sina] does once the record is split in at least five
    fields. *)
Lemma fetch_from_sina_record (py : builtins) (code : pyval) (w : world) (s : state)
    (r : response) (g f0 f1 f2 f3 f4 : string) (more : list string) :
  network w (length (requests s)) Sina (py_str py code) = Received r ->
  re_search (String "=" (String dquote "")) (String dquote "") (decoded r) = Some g ->
  split_comma g = f0 :: f1 :: f2 :: f3 :: f4 :: more ->
  fetch_from_sina py code w s =
  (Ok match float_of_str py f1, float_of_str py f3 with
      | Some gsz, Some dwjz =>
          quote (VStr "sina") (VStr f0) gsz dwjz
            (if (dwjz =? 0)%float then 0 else (gsz - dwjz) / dwjz * 100)%float (VStr f4)
      | _, _ => VNone
      end,
   sent Sina (py_str py code) s).
Proof.
  intros Hnet Hre Hsplit. unfold fetch_from_sina. run.
  rewrite Hnet, Hre, Hsplit. cbn.
  destruct (float_of_str py f1) as [gsz |]; cbn; [| done].
  destruct (float_of_str py f3) as [dwjz |]; cbn; [| done].
  unfold py_truediv. by destruct (dwjz =? 0)%float.
Qed.

(** What [fetch_from_sina] does in every other case. *)
Lemma fetch_from_sina_none (py : builtins) (code : pyval) (w : world) (s : state) :
  match network w (length (requests s)) Sina (py_str py code) with
  | RequestFailed => True
  | Received r =>
      match re_search (String "=" (String dquote "")) (String dquote "") (decoded r) with
      | None => True
      | Some g => (length (split_comma g) < 5)%nat
      end
  end ->
  fetch_from_sina py code w s = (Ok VNone, sent Sina (py_str py code) s).
Proof.
  unfold fetch_from_sina. run.
  destruct (network w _ Sina _) as [| r]; [done |].
  destruct (re_search _ _ _) as [g |]; [| done].
  intros Hlen. apply Nat.ltb_lt in Hlen. by rewrite Hlen.
Qed.

Lemma short_or_five (l : list string) :
  (length l < 5)%nat \/ exists f0 f1 f2 f3 f4 more, l = f0 :: f1 :: f2 :: f3 :: f4 :: more.
Proof.
  do 5 (destruct l as [| ? l]; [left; cbn; lia |]). right. eauto 10.
Qed.

(** X1: whatever the provider answers and whatever the builtins do, the
    second adapter returns without an exception after exactly one request,
    with [None] or with a quote whose source is "sina", whose percent change
    is derived from its two values, and whose name and timestamp hold no
    comma, no double quote and no newline. *)
Theorem fetch_from_sina_safe (py : builtins) (code : pyval) (w : world) (s : state) :
  exists v,
    fetch_from_sina py code w s = (Ok v, sent Sina (py_str py code) s) /\
    (v = VNone \/
     exists name update_time gsz dwjz,
       v = quote (VStr "sina") (VStr name) gsz dwjz
             (if (dwjz =? 0)%float then 0 else (gsz - dwjz) / dwjz * 100)%float
             (VStr update_time) /\
       plain_text name /\ plain_text update_time).
Proof.
  destruct (network w (length (requests s)) Sina (py_str py code)) as [| r] eqn:Hnet.
  { eexists. split; [| by left]. apply fetch_from_sina_none. by rewrite Hnet. }
  destruct (re_search (String "=" (String dquote "")) (String dquote "") (decoded r))
    as [g |] eqn:Hre.
  2: { eexists. split; [| by left]. apply fetch_from_sina_none. by rewrite Hnet, Hre. }
  destruct (short_or_five (split_comma g))
    as [Hshort | (f0 & f1 & f2 & f3 & f4 & more & Hsplit)].
  { eexists. split; [| by left]. apply fetch_from_sina_none. by rewrite Hnet, Hre. }
  rewrite (fetch_from_sina_record py code w s r g f0 f1 f2 f3 f4 more Hnet Hre Hsplit).
  eexists. split; [reflexivity |].
  pose proof (sina_group_fields _ _ Hre) as Hplain. rewrite Hsplit in Hplain.
  destruct (float_of_str py f1) as [gsz |]; [| by left].
  destruct (float_of_str py f3) as [dwjz |]; [| by left].
  right. exists f0, f4, gsz, dwjz. split; [done |].
  repeat (apply Forall_cons in Hplain as [? Hplain]). done.
Qed.

(** X2: the second adapter reports unavailable exactly when the request
    fails, the quoted record is missing, the record has fewer than five
    fields, or the estimate or the last net value is not a number. *)
Theorem fetch_from_sina_available_iff (py : builtins) (code : pyval) (w : world)
    (s : state) :
  fst (fetch_from_sina py code w s) <> Ok VNone <->
  exists r g f0 f1 f2 f3 f4 more,
    network w (length (requests s)) Sina (py_str py code) = Received r /\
    re_search (String "=" (String dquote "")) (String dquote "") (decoded r) = Some g /\
    split_comma g = f0 :: f1 :: f2 :: f3 :: f4 :: more /\
    is_Some (float_of_str py f1) /\ is_Some (float_of_str py f3).
Proof.
  split.
  - intros Hv.
    destruct (network w (length (requests s)) Sina (py_str py code)) as [| r] eqn:Hnet.
    { destruct Hv. rewrite fetch_from_sina_none; [done | by rewrite Hnet]. }
    destruct (re_search (String "=" (String dquote "")) (String dquote "") (decoded r))
      as [g |] eqn:Hre.
    2: { destruct Hv. rewrite fetch_from_sina_none; [done | by rewrite Hnet, Hre]. }
    destruct (short_or_five (split_comma g))
      as [Hshort | (f0 & f1 & f2 & f3 & f4 & more & Hsplit)].
    { destruct Hv. rewrite fetch_from_sina_none; [done | by rewrite Hnet, Hre]. }
    rewrite (fetch_from_sina_record py code w s r g f0 f1 f2 f3 f4 more Hnet Hre Hsplit)
      in Hv.
    exists r, g, f0, f1, f2, f3, f4, more. split_and!; try done.
    + by destruct (float_of_str py f1).
    + destruct (float_of_str py f1); [| done]. by destruct (float_of_str py f3).
  - intros (r & g & f0 & f1 & f2 & f3 & f4 & more & Hnet & Hre & Hsplit & [gsz Hg] & [dwjz Hd]).
    rewrite (fetch_from_sina_record py code w s r g f0 f1 f2 f3 f4 more Hnet Hre Hsplit).
    rewrite Hg, Hd. done.
Qed.

Lemma py_float_raises (py : builtins) (v : pyval) (e : exn) :
  py_float py v = Raise e -> e = ValueError \/ e = TypeError \/ e = OverflowError.
Proof.
  destruct v; cbn; repeat case_match; intros ?; simplify_eq; eauto.
Qed.

Lemma eastmoney_numbers_raises (py : builtins) (d : gmap string pyval) (e : exn) :
  eastmoney_numbers py d = Raise e ->
  e = ValueError \/ e = TypeError \/ e = OverflowError.
Proof.
  unfold eastmoney_numbers. cbn [dict_get mbind result_bind].
  destruct (py_float py (default (VInt 0) (d !! "gsz"))) eqn:E1; cbn;
    [| intros ?; simplify_eq; by eapply py_float_raises].
  destruct (py_float py (default (VInt 0) (d !! "dwjz"))) eqn:E2; cbn;
    [| intros ?; simplify_eq; by eapply py_float_raises].
  destruct (py_float py (default (VInt 0) (d !! "gszzl"))) eqn:E3; cbn;
    [done | intros ?; simplify_eq; by eapply py_float_raises].
Qed.

(** What [fetch_from_eastmoney] does with a JSON object. *)
Lemma fetch_from_eastmoney_on_object (py : builtins) (code : pyval) (w : world)
    (s : state) (r : response) (group1 : string) (d : gmap string pyval) :
  network w (length (requests s)) Eastmoney (py_str py code) = Received r ->
  re_search "jsonpgz(" ");" (text r) = Some group1 ->
  json_loads py group1 = Some (VDict d) ->
  fetch_from_eastmoney py code w s =
  (match eastmoney_numbers py d with
   | Ok (gsz, dwjz, gszzl) =>
       Ok (quote (VStr "eastmoney")
             (default (VStr ("基金" +:+ py_str py code)) (d !! "name"))
             gsz dwjz gszzl (default (VStr "") (d !! "gztime")))
   | Raise ValueError => Ok VNone
   | Raise e => Raise e
   end,
   sent Eastmoney (py_str py code) s).
Proof.
  intros Hnet Hre Hjson.
  pose proof (eastmoney_numbers_raises py d) as Hexn.
  unfold fetch_from_eastmoney, loads, eastmoney_numbers in *. run.
  rewrite Hnet, Hre, Hjson. cbn [dict_get] in *.
  destruct (py_float py (default (VInt 0) (d !! "gsz"))) as [gsz | e1].
  2: { by destruct (Hexn e1 eq_refl) as [-> | [-> | ->]]. }
  destruct (py_float py (default (VInt 0) (d !! "dwjz"))) as [dwjz | e2].
  2: { by destruct (Hexn e2 eq_refl) as [-> | [-> | ->]]. }
  destruct (py_float py (default (VInt 0) (d !! "gszzl"))) as [gszzl | e3].
  2: { by destruct (Hexn e3 eq_refl) as [-> | [-> | ->]]. }
  done.
Qed.

(** X3: for a JSON object the first adapter takes each field with its
    default: a missing name is the placeholder made of the code, missing
    numbers are 0.0, a missing timestamp is the empty string.  A number field
    that does not convert makes the adapter unavailable when the failure is a
    [ValueError] (a string that is not a number) and escapes otherwise. *)
Theorem fetch_from_eastmoney_object (py : builtins) (code : pyval) (w : world)
    (s : state) (r : response) (group1 : string) (d : gmap string pyval) :
  network w (length (requests s)) Eastmoney (py_str py code) = Received r ->
  re_search "jsonpgz(" ");" (text r) = Some group1 ->
  json_loads py group1 = Some (VDict d) ->
  fetch_from_eastmoney py code w s =
  (match eastmoney_numbers py d with
   | Ok (gsz, dwjz, gszzl) =>
       Ok (quote (VStr "eastmoney")
             (default (VStr ("基金" +:+ py_str py code)) (d !! "name"))
             gsz dwjz gszzl (default (VStr "") (d !! "gztime")))
   | Raise ValueError => Ok VNone
   | Raise e => Raise e
   end,
   sent Eastmoney (py_str py code) s).
Proof. exact (fetch_from_eastmoney_on_object py code w s r group1 d). Qed.

Lemma fetch_from_eastmoney_object_witness :
  fetch_from_eastmoney demo_builtins (VStr "000001")
    (fixed_world 0 10 eastmoney_empty_object RequestFailed) (fresh NoFile)
  = (Ok (quote (VStr "eastmoney") (VStr "基金000001") 0 0 0 (VStr "")),
     sent Eastmoney "000001" (fresh NoFile)).
Proof.
  rewrite (fetch_from_eastmoney_object demo_builtins (VStr "000001")
             (fixed_world 0 10 eastmoney_empty_object RequestFailed) (fresh NoFile)
             {| text := "jsonpgz({});"; content_gbk := Some "jsonpgz({});"%string |}
             "{}" ∅) by reflexivity.
  reflexivity.
Defined.

(** X4: the only exceptions that leave the first adapter are
    [RecursionError], when [json.loads] raises it on the wrapped text, and
    [AttributeError], [TypeError] and [OverflowError], after the wrapped text
    was parsed as JSON; a failed request, a missing wrapper and text that is
    not JSON never raise.  What it returns is [None] or a quote whose source
    is "eastmoney". *)
Theorem fetch_from_eastmoney_outcomes (py : builtins) (code : pyval) (w : world)
    (s : state) :
  match fst (fetch_from_eastmoney py code w s) with
  | Ok v =>
      v = VNone \/
      exists name gsz dwjz gszzl update_time,
        v = quote (VStr "eastmoney") name gsz dwjz gszzl update_time
  | Raise e =>
      exists r group1,
        network w (length (requests s)) Eastmoney (py_str py code) = Received r /\
        re_search "jsonpgz(" ");" (text r) = Some group1 /\
        (e = RecursionError /\
         json_loads py group1 = None /\ json_raises py group1 = TooDeep
         \/
         (e = AttributeError \/ e = TypeError \/ e = OverflowError) /\
         exists data, json_loads py group1 = Some data)
  end.
Proof.
  destruct (network w (length (requests s)) Eastmoney (py_str py code)) as [| r] eqn:Hnet.
  { rewrite fetch_from_eastmoney_unavailable; [by left | by rewrite Hnet]. }
  destruct (re_search "jsonpgz(" ");" (text r)) as [g |] eqn:Hre.
  2: { rewrite fetch_from_eastmoney_unavailable; [by left | by rewrite Hnet, Hre]. }
  destruct (json_loads py g) as [data |] eqn:Hjson.
  2: { destruct (json_raises py g) eqn:Hwhy.
       - rewrite fetch_from_eastmoney_unavailable; [by left | by rewrite Hnet, Hre].
       - rewrite (fetch_from_eastmoney_too_deep py code w s r g Hnet Hre Hjson Hwhy).
         cbn. exists r, g. split_and!; [done .. |]. by left. }
  assert ((exists d, data = VDict d) \/
          fetch_from_eastmoney py code w s
          = (Raise AttributeError, sent Eastmoney (py_str py code) s)) as [[d ->] | ->].
  { unfold fetch_from_eastmoney, loads. run. rewrite Hnet, Hre, Hjson.
    destruct data; eauto. }
  - rewrite (fetch_from_eastmoney_on_object py code w s r g d Hnet Hre Hjson). cbn [fst].
    destruct (eastmoney_numbers py d) as [[[gsz dwjz] gszzl] | e] eqn:En; [eauto 10 |].
    destruct (eastmoney_numbers_raises py d e En) as [-> | [-> | ->]]; [by left | |];
      (exists r, g; split_and!; [done .. |]; right; eauto).
  - cbn. exists r, g. split_and!; [done .. |]. right. eauto.
Qed.

(** ** Further properties of the resolver *)

(** X5: when both adapters return, the resolver returns one of their two
    answers; it returns [None] only when both are [None]; and when both are
    quotes it returns the second provider's at a weekend before 9 or after 15
    and the first provider's at any other time. *)
Theorem get_best_data_choice (py : builtins) (code : pyval) (w : world)
    (s s1 s2 : state) (eastmoney sina : pyval) :
  let now := localtime w (length (requests s)) in
  fetch_from_eastmoney py code w s = (Ok eastmoney, s1) ->
  fetch_from_sina py code w s1 = (Ok sina, s2) ->
  exists remote,
    fst (get_best_data py code w s) = Ok remote /\
    (remote = eastmoney \/ remote = sina) /\
    (remote = VNone <-> eastmoney = VNone /\ sina = VNone) /\
    (eastmoney <> VNone -> sina <> VNone ->
     remote = if (5 <=? tm_wday now) && negb ((9 <=? tm_hour now) && (tm_hour now <=? 15))
              then sina else eastmoney).
Proof.
  intros now He Hs. subst now. rewrite get_best_data_run. cbv zeta. rewrite He.
  assert (eastmoney = VNone /\ truthy eastmoney = false \/
          eastmoney <> VNone /\ truthy eastmoney = true) as Pe.
  { destruct (fetch_from_eastmoney_value _ _ _ _ _ _ He)
      as [-> | (? & ? & ? & ? & ? & ->)]; [by left | right].
    by rewrite truthy_quote. }
  assert (sina = VNone /\ truthy sina = false \/
          sina <> VNone /\ truthy sina = true) as Ps.
  { destruct (fetch_from_sina_returns py code w s1) as (v & Hv & Hq).
    rewrite Hs in Hv. simplify_eq.
    destruct Hq as [-> | (? & ? & ? & ? & ? & ->)]; [by left | right].
    by rewrite truthy_quote. }
  unfold py_or.
  destruct Pe as [[-> Te] | [Ne Te]], Ps as [[-> Ts] | [Ns Ts]];
    rewrite ?Te, ?Ts; cbn [truthy]; rewrite ?andb_false_r, ?andb_true_r, ?Hs;
    destruct (5 <=? _); destruct ((9 <=? _) && (_ <=? 15));
    cbn [fst andb negb]; rewrite ?Hs; cbn [fst truthy]; rewrite ?Te, ?Ts;
    eexists; (split; [reflexivity |]); intuition congruence.
Qed.

(** ** Further properties of the views *)

Lemma truthy_py_or_r (a b : pyval) : truthy b = true -> truthy (py_or a b) = true.
Proof. unfold py_or. by destruct (truthy a) eqn:E. Qed.

Lemma truthy_placeholder (s : string) : truthy (VStr ("基金" +:+ s)) = true.
Proof. reflexivity. Qed.

Lemma truthy_format_update_time (value : pyval) :
  truthy (format_update_time value) = true.
Proof. unfold format_update_time. by destruct (truthy value) eqn:E. Qed.

(** Every view that [compute_fund_view] returns, whatever the holding and
    the quote. *)
Lemma compute_fund_view_inv (py : builtins) (holding remote view : pyval) :
  compute_fund_view py holding remote = Ok view ->
  exists code name shares cost gsz dwjz gszzl update_time source,
    view = view_record code name shares cost gsz dwjz gszzl
             (shares * gsz) ((gsz - dwjz) * shares) ((gsz - cost) * shares)
             update_time source /\
    getitem holding "code" = Ok code /\
    dict_get holding "shares" (VInt 0) ≫= py_float py = Ok shares /\
    dict_get holding "cost" (VInt 0) ≫= py_float py = Ok cost /\
    truthy name = true /\ truthy update_time = true /\
    (if truthy remote
     then dict_get remote "source" (VStr "unknown") = Ok source
     else source = VStr "offline" /\ gsz = cost /\ dwjz = cost /\ gszzl = VInt 0).
Proof.
  unfold compute_fund_view. cbn [mbind result_bind].
  destruct (getitem holding "code") as [code |]; cbn [mbind result_bind]; [| done].
  destruct (dict_get holding "name" VNone) as [hname |]; cbn [mbind result_bind]; [| done].
  destruct (dict_get holding "shares" (VInt 0)) as [sh |]; cbn [mbind result_bind];
    [| done].
  destruct (py_float py sh) as [shares |]; cbn [mbind result_bind]; [| done].
  destruct (dict_get holding "cost" (VInt 0)) as [co |]; cbn [mbind result_bind];
    [| done].
  destruct (py_float py co) as [cost |]; cbn [mbind result_bind]; [| done].
  destruct (truthy remote).
  - destruct (dict_get remote "gsz" (VFloat cost)) as [g |]; cbn [mbind result_bind];
      [| done].
    destruct (py_float py g) as [gsz |]; cbn [mbind result_bind]; [| done].
    destruct (dict_get remote "dwjz" (VFloat cost)) as [dw |]; cbn [mbind result_bind];
      [| done].
    destruct (py_float py dw) as [dwjz |]; cbn [mbind result_bind]; [| done].
    destruct (dict_get remote "gszzl" (VInt 0)) as [z |]; cbn [mbind result_bind];
      [| done].
    destruct (py_float py z) as [gszzl |]; cbn [mbind result_bind]; [| done].
    destruct (dict_get remote "name" VNone) as [rname |]; cbn [mbind result_bind];
      [| done].
    destruct (dict_get remote "update_time" VNone) as [value |];
      cbn [mbind result_bind]; [| done].
    destruct (dict_get remote "source" (VStr "unknown")) as [source |];
      cbn [mbind result_bind]; [| done].
    intros [= <-]. do 9 eexists. split; [reflexivity |]. split_and!; try done.
    + apply truthy_py_or_r, truthy_py_or_r, truthy_placeholder.
    + apply truthy_format_update_time.
  - cbn [mbind result_bind].
    intros [= <-]. do 9 eexists. split; [reflexivity |]. split_and!; try done.
    apply truthy_py_or_r, truthy_placeholder.
Qed.

(** X6: in every view that is returned, whatever the holding and the quote
    (complete, partial or absent), the three amounts are computed from the
    view's own fields: market value = shares * estimate,
    day profit = (estimate - last net value) * shares and
    total profit = (estimate - cost) * shares; and the code is the
    holding's. *)
Theorem compute_fund_view_amounts (py : builtins) (holding remote view : pyval) :
  compute_fund_view py holding remote = Ok view ->
  exists shares cost gsz dwjz,
    getitem view "shares" = Ok (VFloat shares) /\
    getitem view "cost" = Ok (VFloat cost) /\
    getitem view "gsz" = Ok (VFloat gsz) /\
    getitem view "dwjz" = Ok (VFloat dwjz) /\
    getitem view "market_value" = Ok (VFloat (shares * gsz)) /\
    getitem view "day_profit" = Ok (VFloat ((gsz - dwjz) * shares)) /\
    getitem view "total_profit" = Ok (VFloat ((gsz - cost) * shares)) /\
    getitem view "code" = getitem holding "code".
Proof.
  intros Hview.
  apply compute_fund_view_inv in Hview
    as (code & name & shares & cost & gsz & dwjz & gszzl & update_time & source
        & -> & Hcode & _).
  exists shares, cost, gsz, dwjz. rewrite Hcode.
  unfold view_record, getitem. by literal_lookup.
Qed.

(** X7: the name and the update time of a view are never empty: a missing
    or empty name falls back to the holding's name and then to the
    placeholder, an empty timestamp to "--". *)
Theorem compute_fund_view_display (py : builtins) (holding remote view : pyval) :
  compute_fund_view py holding remote = Ok view ->
  exists name update_time,
    getitem view "name" = Ok name /\ truthy name = true /\
    getitem view "update_time" = Ok update_time /\ truthy update_time = true.
Proof.
  intros Hview.
  apply compute_fund_view_inv in Hview
    as (code & name & shares & cost & gsz & dwjz & gszzl & update_time & source
        & -> & _ & _ & _ & Hname & Htime & _).
  exists name, update_time. unfold view_record, getitem. by literal_lookup.
Qed.

(** X8: [compute_fund_view] raises [KeyError] exactly when the holding is a
    dictionary without the key "code"; the keys "name", "shares" and "cost"
    may be missing. *)
Theorem compute_fund_view_key_error (py : builtins) (h : gmap string pyval)
    (remote : pyval) :
  compute_fund_view py (VDict h) remote = Raise KeyError <-> h !! "code" = None.
Proof.
  unfold compute_fund_view. cbn [getitem dict_get mbind result_bind].
  destruct (h !! "code") as [code |]; [| done]. cbn [mbind result_bind].
  split; [| done]. intros Hraise. exfalso. revert Hraise.
  assert (forall v, py_float py v <> Raise KeyError) as Hf.
  { intros v Hv. by destruct (py_float_raises py v KeyError Hv) as [? | [? | ?]]. }
  repeat match goal with
  | |- context [py_float py ?v] =>
      let E := fresh "E" in
      destruct (py_float py v) as [? | ?] eqn:E; cbn [mbind result_bind];
      [| intros [= ->]; by destruct (Hf _ E)]
  | |- context [if truthy remote then _ else _] => destruct (truthy remote)
  | |- context [dict_get remote ?k ?dflt] =>
      destruct (dict_get remote k dflt) as [? | ?] eqn:?; cbn [mbind result_bind];
      [| destruct remote; by simplify_eq]
  end; done.
Qed.

(** ** Further properties of the valuation route *)

Section ValuationFacts.
Context (py : builtins).

(** The resolver changes the state only by the one or two requests it
    logs. *)
Lemma get_best_data_frame (code : pyval) (w : world) (s : state) :
  exists l, snd (get_best_data py code w s) = after_requests l s /\
            (1 <= length l <= 2)%nat.
Proof.
  rewrite get_best_data_run. cbv zeta.
  pose proof (fetch_from_eastmoney_sends py code w s) as Hsent.
  destruct (fetch_from_eastmoney py code w s) as [[eastmoney | e] s1];
    cbn in Hsent; subst s1.
  2: { exists [(Eastmoney, py_str py code)]. split; [done | cbn; lia]. }
  destruct (fetch_from_sina_returns py code w (sent Eastmoney (py_str py code) s))
    as (sina & -> & _).
  destruct (_ && truthy eastmoney).
  - exists [(Eastmoney, py_str py code)]. split; [done | cbn; lia].
  - exists [(Eastmoney, py_str py code); (Sina, py_str py code)].
    split; [| cbn; lia]. unfold after_requests, sent. cbn. by rewrite <- app_assoc.
Qed.

(** What the resolver returns is [None] or a quote of one of the two
    providers. *)
Lemma get_best_data_provider_quote (code : pyval) (w : world) (s s' : state)
    (remote : pyval) :
  get_best_data py code w s = (Ok remote, s') -> provider_quote remote.
Proof.
  rewrite get_best_data_run. cbv zeta.
  destruct (fetch_from_eastmoney py code w s) as [[eastmoney | e] s1] eqn:He; [| done].
  assert (provider_quote eastmoney) as Pe.
  { destruct (fetch_from_eastmoney_value _ _ _ _ _ _ He)
      as [-> | (? & ? & ? & ? & ? & ->)]; [by left | right]. eauto 10. }
  destruct (_ && truthy eastmoney); [by intros [= <- _] |].
  destruct (fetch_from_sina_returns py code w s1) as (sina & -> & Hq).
  assert (provider_quote sina) as Ps.
  { destruct Hq as [-> | (? & ? & ? & ? & ? & ->)]; [by left | right]. eauto 10. }
  intros [= <- _]. unfold py_or. by repeat case_match.
Qed.

Lemma after_requests_app (l k : list (provider * string)) (s : state) :
  after_requests k (after_requests l s) = after_requests (l ++ k) s.
Proof. unfold after_requests. cbn. by rewrite app_assoc. Qed.

(** The loop of the valuation route: it only logs requests, at most two for
    each holding; when it ends normally it has logged at least one for each
    holding and has appended one view for each holding, in order, each built
    from that holding and a quote of a provider or no quote. *)
Lemma valuations_loop_frame (holdings : list pyval) :
  forall (data : list pyval) (t : totals) (w : world) (s : state),
  exists l,
    snd (valuations_loop py holdings data t w s) = after_requests l s /\
    (length l <= 2 * length holdings)%nat /\
    match fst (valuations_loop py holdings data t w s) with
    | Ok (data', _) =>
        (length holdings <= length l)%nat /\
        exists views,
          data' = data ++ views /\
          Forall2 (fun holding view =>
                     exists remote, provider_quote remote /\
                                    compute_fund_view py holding remote = Ok view)
                  holdings views
    | Raise _ => True
    end.
Proof.
  induction holdings as [| holding rest IH]; intros data t w s.
  - exists []. cbn. split; [| split; [lia |]].
    + unfold after_requests. destruct s. cbn. by rewrite app_nil_r.
    + split; [lia |]. exists []. by rewrite app_nil_r.
  - cbn [valuations_loop]. rewrite bind_run, lift_run.
    destruct (getitem holding "code") as [code |].
    2: { exists []. cbn. split; [| split; [lia | done]].
         unfold after_requests. destruct s. cbn. by rewrite app_nil_r. }
    rewrite bind_run.
    destruct (get_best_data_frame code w s) as (l1 & Hs1 & Hl1).
    destruct (get_best_data py code w s) as [[remote | e] s1] eqn:Hbest;
      cbn [snd] in Hs1; subst s1.
    2: { exists l1. cbn. split; [done | split; [lia | done]]. }
    apply get_best_data_provider_quote in Hbest.
    rewrite bind_run, lift_run.
    destruct (compute_fund_view py holding remote) as [view |] eqn:Hview.
    2: { exists l1. cbn. split; [done | split; [lia | done]]. }
    rewrite bind_run, lift_run.
    destruct (getitem view "market_value" ≫= py_add py (total_market t)) as [market |].
    2: { exists l1. cbn. split; [done | split; [lia | done]]. }
    rewrite bind_run, lift_run.
    destruct (getitem view "day_profit" ≫= py_add py (total_day t)) as [day |].
    2: { exists l1. cbn. split; [done | split; [lia | done]]. }
    rewrite bind_run, lift_run.
    destruct (getitem view "total_profit" ≫= py_add py (total_profit t)) as [profit |].
    2: { exists l1. cbn. split; [done | split; [lia | done]]. }
    destruct (IH (data ++ [view])
                {| total_market := market; total_day := day; total_profit := profit |}
                w (after_requests l1 s)) as (l2 & Hs2 & Hl2 & Hok).
    exists (l1 ++ l2). rewrite Hs2, after_requests_app.
    split; [done |]. split; [rewrite length_app; cbn; lia |].
    destruct (fst (valuations_loop _ _ _ _ _ _)) as [[data' t'] | e]; [| done].
    destruct Hok as (Hlen & views & -> & Hviews).
    split; [rewrite length_app; cbn; lia |].
    exists (view :: views). split; [by rewrite <- app_assoc |].
    constructor; [eauto | done].
Qed.

End ValuationFacts.

Lemma after_requests_nil (s : state) : after_requests [] s = s.
Proof. unfold after_requests. destruct s. cbn. by rewrite app_nil_r. Qed.

Lemma get_valuations_run (py : builtins) (w : world) (s : state) :
  get_valuations py w s =
  match loaded (config_file s) with
  | Raise e => (Raise e, s)
  | Ok holdings =>
      match valuations_loop py holdings []
              {| total_market := VInt 0; total_day := VInt 0; total_profit := VInt 0 |} w s
      with
      | (Ok (data, t), s') =>
          (Ok (jsonify
                 (VDict (<["data" := VList data]>
                        (<["summary" := summary_of t (strftime_now w (length (requests s')))]>
                         ∅))) 200), s')
      | (Raise e, s') => (Raise e, s')
      end
  end.
Proof.
  unfold get_valuations. rewrite bind_run, load_holdings_run.
  destruct (loaded (config_file s)) as [holdings | e]; [| done].
  rewrite bind_run. by destruct (valuations_loop _ _ _ _ _ _) as [[[data t] | e] s'].
Qed.

(** X9: the valuation route never writes the holdings file, whether it
    answers or raises, and it sends at most two requests for each stored
    holding; when it answers it has sent at least one for each. *)
Theorem get_valuations_frame (py : builtins) (w : world) (s : state) :
  let n := length (stored_holdings (config_file s)) in
  exists l,
    snd (get_valuations py w s) = after_requests l s /\
    (length l <= 2 * n)%nat /\
    (raises (fst (get_valuations py w s)) = false -> (n <= length l)%nat).
Proof.
  intros n. subst n. rewrite get_valuations_run.
  destruct (loaded (config_file s)) as [holdings | e] eqn:Hload.
  2: { exists []. cbn. split_and!; [by rewrite after_requests_nil | lia | done]. }
  apply loaded_stored in Hload as ->.
  destruct (valuations_loop_frame py (stored_holdings (config_file s)) []
              {| total_market := VInt 0; total_day := VInt 0; total_profit := VInt 0 |}
              w s) as (l & Hs & Hl & Hok).
  exists l.
  destruct (valuations_loop _ _ _ _ _ _) as [[[data t] | e] s']; cbn in *;
    (split; [done |]); (split; [done |]); [| done].
  intros _. by destruct Hok.
Qed.

(** X10: when the valuation route answers, its data holds one view for each
    stored holding, in the order of the file; each view carries the code of
    its holding, and its source is "eastmoney", "sina" or "offline". *)
Theorem get_valuations_views (py : builtins) (w : world) (s s' : state)
    (body : pyval) (status : Z) :
  get_valuations py w s = (Ok (body, status), s') ->
  status = 200 /\
  exists data,
    getitem body "data" = Ok (VList data) /\
    Forall2 (fun holding view =>
               getitem view "code" = getitem holding "code" /\
               (getitem view "source" = Ok (VStr "eastmoney") \/
                getitem view "source" = Ok (VStr "sina") \/
                getitem view "source" = Ok (VStr "offline")))
            (stored_holdings (config_file s)) data.
Proof.
  rewrite get_valuations_run.
  destruct (loaded (config_file s)) as [holdings | e] eqn:Hload; [| done].
  apply loaded_stored in Hload as ->.
  destruct (valuations_loop_frame py (stored_holdings (config_file s)) []
              {| total_market := VInt 0; total_day := VInt 0; total_profit := VInt 0 |}
              w s) as (l & _ & _ & Hok).
  destruct (valuations_loop _ _ _ _ _ _) as [[[data t] | e] s1]; [| done].
  cbn in Hok. destruct Hok as (_ & views & -> & Hviews).
  intros [= <- <- _]. split; [done |]. exists views. split.
  { unfold getitem. by literal_lookup. }
  eapply Forall2_impl; [exact Hviews |]. cbn.
  intros holding view (remote & Hremote & Hview).
  pose proof (compute_fund_view_inv py holding remote view Hview)
    as (code & name & shares & cost & gsz & dwjz & gszzl & update_time & source
        & -> & Hcode & _ & _ & _ & _ & Hsource).
  split.
  { rewrite Hcode. unfold view_record, getitem. by literal_lookup. }
  assert (getitem (view_record code name shares cost gsz dwjz gszzl (shares * gsz)
                     ((gsz - dwjz) * shares) ((gsz - cost) * shares) update_time source)
                  "source" = Ok source) as ->.
  { unfold view_record, getitem. by literal_lookup. }
  destruct Hremote as [-> | (src & qname & g & d & z & ut & -> & Hsrc)].
  - cbn in Hsource. destruct Hsource as (-> & _). eauto.
  - rewrite truthy_quote in Hsource. unfold quote in Hsource. cbn in Hsource.
    revert Hsource. literal_lookup. cbn. intros [= <-].
    destruct Hsrc as [-> | ->]; eauto.
Qed.

(** X11: one stored record without a code makes the whole valuation route
    raise instead of answering. *)
Theorem get_valuations_needs_codes (py : builtins) (w : world) (s : state) :
  Exists (fun item => code_of item = None) (stored_holdings (config_file s)) ->
  raises (fst (get_valuations py w s)) = true.
Proof.
  intros Hbad. rewrite get_valuations_run.
  destruct (loaded (config_file s)) as [stored | e] eqn:Hload; [| done].
  apply loaded_stored in Hload as ->.
  assert (forall holdings data t s0,
            Exists (fun item => code_of item = None) holdings ->
            raises (fst (valuations_loop py holdings data t w s0)) = true) as Hloop.
  { clear. induction holdings as [| holding rest IH]; intros data t s0 Hex.
    - by apply Exists_nil in Hex.
    - cbn [valuations_loop]. rewrite bind_run, lift_run.
      destruct (getitem holding "code") as [code |] eqn:Hcode; [| done].
      apply Exists_cons in Hex as [Hhere | Hlater].
      { unfold getitem, code_of in *. destruct holding; try done.
        by rewrite Hhere in Hcode. }
      rewrite bind_run.
      destruct (get_best_data py code w s0) as [[remote |] s1]; [| done].
      rewrite bind_run, lift_run.
      destruct (compute_fund_view py holding remote) as [view |]; [| done].
      rewrite bind_run, lift_run.
      destruct (getitem view "market_value" ≫= _) as [market |]; [| done].
      rewrite bind_run, lift_run.
      destruct (getitem view "day_profit" ≫= _) as [day |]; [| done].
      rewrite bind_run, lift_run.
      destruct (getitem view "total_profit" ≫= _) as [profit |]; [| done].
      by apply IH. }
  specialize (Hloop _ []
                {| total_market := VInt 0; total_day := VInt 0; total_profit := VInt 0 |}
                s Hbad).
  by destruct (valuations_loop _ _ _ _ _ _) as [[[data t] | e] s'].
Qed.

(** ** Further properties of the holdings routes *)

Section UpsertMore.
Context (py : builtins) (code : string) (shares cost : float) (name : string).

Lemma has_code_dict (d : gmap string pyval) :
  has_code code (VDict d) = true <-> d !! "code" = Some (VStr code).
Proof. apply has_code_true. Qed.

(** The loop of [add_fund] rewrites the first record that has the code. *)
Lemma update_existing_at (holdings : list pyval) (i : nat) (d : gmap string pyval) :
  Forall (fun item => is_Some (code_of item)) holdings ->
  holdings !! i = Some (VDict d) ->
  d !! "code" = Some (VStr code) ->
  (forall j item, (j < i)%nat -> holdings !! j = Some item -> has_code code item = false) ->
  update_existing code shares cost name holdings
  = Ok (<[i := VDict (rewritten shares cost name d)]> holdings, true).
Proof.
  intros Hrecords. revert i.
  induction Hrecords as [| item rest Hitem _ IH]; intros i Hi Hd Hfirst; [done |].
  destruct i as [| i].
  - cbn in Hi. injection Hi as ->. cbn [update_existing getitem]. rewrite Hd.
    cbn [mbind result_bind eq_str]. rewrite String.eqb_refl.
    unfold rewritten. cbn. by destruct (negb _).
  - cbn in Hi.
    destruct (getitem_code_of item Hitem) as (c & Hget & _).
    cbn [update_existing]. rewrite Hget. cbn [mbind result_bind].
    rewrite <- (has_code_getitem code item c Hget).
    rewrite (Hfirst 0%nat item); [| lia | done].
    rewrite (IH i Hi Hd).
    + done.
    + intros j item' Hj Hitem'. apply (Hfirst (S j) item'); [lia | done].
Qed.

(** The outcome of the loop, with the position of the rewritten record. *)
Lemma update_existing_first (holdings : list pyval) :
  Forall (fun item => is_Some (code_of item)) holdings ->
  (Forall (fun item => has_code code item = false) holdings /\
   update_existing code shares cost name holdings = Ok (holdings, false))
  \/
  (exists (i : nat) (d : gmap string pyval),
     holdings !! i = Some (VDict d) /\
     d !! "code" = Some (VStr code) /\
     (forall j item, (j < i)%nat -> holdings !! j = Some item ->
                     has_code code item = false) /\
     update_existing code shares cost name holdings
     = Ok (<[i := VDict (rewritten shares cost name d)]> holdings, true)).
Proof.
  induction 1 as [| item rest Hitem Hrest IH].
  - left. by split.
  - destruct (has_code code item) eqn:Hc.
    + right. destruct item as [| | | | | | d]; try done.
      apply has_code_dict in Hc.
      exists 0%nat, d. split_and!; [done | done | intros; lia |].
      apply update_existing_at; [by constructor | done | done | intros; lia].
    + destruct IH as [[Hnone Hrun] | (i & d & Hi & Hd & Hfirst & Hrun)].
      * left. split; [by constructor |].
        destruct (getitem_code_of item Hitem) as (c & Hget & _).
        cbn [update_existing]. rewrite Hget. cbn [mbind result_bind].
        by rewrite <- (has_code_getitem code item c Hget), Hc, Hrun.
      * right. exists (S i), d.
        assert (forall j item', (j < S i)%nat -> (item :: rest) !! j = Some item' ->
                                has_code code item' = false) as Hfirst'.
        { intros [| j] item' Hj Hitem'; cbn in Hitem'; [by simplify_eq |].
          apply (Hfirst j item'); [lia | done]. }
        split_and!; [done | done | done |].
        apply update_existing_at; [by constructor | done | done | done].
Qed.

(** Rewriting a record twice with the same values is rewriting it once. *)
Lemma rewritten_idempotent (d : gmap string pyval) :
  rewritten shares cost name (rewritten shares cost name d)
  = rewritten shares cost name d.
Proof.
  apply map_eq. intros k.
  destruct (rewritten_lookup shares cost name d) as (Hs & Hc & Hn & Ho).
  destruct (rewritten_lookup shares cost name (rewritten shares cost name d))
    as (Hs' & Hc' & Hn' & Ho').
  destruct (decide (k = "shares")) as [-> | ?]; [by rewrite Hs', Hs |].
  destruct (decide (k = "cost")) as [-> | ?]; [by rewrite Hc', Hc |].
  destruct (decide (k = "name")) as [-> | ?]; [| by apply Ho'].
  rewrite Hn', Hn. by destruct (String.eqb name "").
Qed.

(** Rewriting the record that [add_fund] appends changes nothing. *)
Lemma rewritten_new_holding :
  forall d, new_holding code shares cost name = VDict d ->
            rewritten shares cost name d = d.
Proof.
  intros d [= <-]. apply map_eq. intros k.
  destruct (rewritten_lookup shares cost name
              (<["code" := VStr code]>
                 (<["name" := py_or (VStr name) (VStr ("基金" +:+ code))]>
                    (<["shares" := VFloat shares]> (<["cost" := VFloat cost]> ∅)))))
    as (Hs & Hc & Hn & Ho).
  destruct (decide (k = "shares")) as [-> | ?]; [rewrite Hs; by literal_lookup |].
  destruct (decide (k = "cost")) as [-> | ?]; [rewrite Hc; by literal_lookup |].
  destruct (decide (k = "name")) as [-> | ?]; [| by apply Ho].
  rewrite Hn. literal_lookup. unfold py_or, truthy.
  by destruct (String.eqb name "").
Qed.

End UpsertMore.

Section HoldingsRoutes.
Context (py : builtins).

(** An accepted request, once the file is loaded, writes the upserted list:
    it answers success when the write succeeds and raises when it fails. *)
Lemma add_fund_accepted (data : pyval) (code : string) (shares cost : float)
    (name : string) (w : world) (s : state) :
  accepted py data code shares cost name ->
  Forall (fun item => is_Some (code_of item)) (stored_holdings (config_file s)) ->
  add_fund py data w s =
  match loaded (config_file s) with
  | Raise e => (Raise e, s)
  | Ok _ =>
      let holdings := upserted code shares cost name (stored_holdings (config_file s)) in
      match writing w holdings with
      | Written =>
          (Ok (success_body, 200),
           {| requests := requests s; config_file := Json (VList holdings) |})
      | OpenFails => (Raise OSError, s)
      | DumpFails e => (Raise e, {| requests := requests s; config_file := truncated |})
      end
  end.
Proof.
  intros ([code_field [Hdata ->]] & Hcode & Hshares & Hcost & Hname & Hs & Hc) Hrecords.
  unfold add_fund. rewrite bind_run, lift_run, Hdata. cbv zeta.
  assert (truthy (VStr (str_strip py (py_str py code_field))) = true) as ->.
  { cbn. by apply negb_true_iff, String.eqb_neq. }
  cbn [negb]. rewrite bind_run, lift_run, Hshares, bind_run, lift_run, Hcost.
  rewrite bind_run, lift_run, Hname, Hs, Hc.
  rewrite bind_run, load_holdings_run.
  destruct (loaded (config_file s)) as [holdings | e] eqn:Hload; [| done].
  apply loaded_stored in Hload as ->.
  rewrite bind_run, lift_run. unfold upserted.
  destruct (update_existing_first (str_strip py (py_str py code_field)) shares cost name
              _ Hrecords) as [[_ ->] | (i & d & _ & _ & _ & ->)];
    cbn [negb]; rewrite bind_run, save_holdings_run; by destruct (writing w _).
Qed.

(** The file an accepted request leaves when it answers success. *)
Lemma add_fund_success (data : pyval) (code : string) (shares cost : float)
    (name : string) (w : world) (s : state) :
  accepted py data code shares cost name ->
  Forall (fun item => is_Some (code_of item)) (stored_holdings (config_file s)) ->
  fst (add_fund py data w s) = Ok (success_body, 200) ->
  let holdings := upserted code shares cost name (stored_holdings (config_file s)) in
  writing w holdings = Written /\
  snd (add_fund py data w s)
  = {| requests := requests s; config_file := Json (VList holdings) |}.
Proof.
  intros Hacc Hrecords. rewrite (add_fund_accepted _ _ _ _ _ w s Hacc Hrecords).
  destruct (loaded (config_file s)); [| done]. cbv zeta.
  by destruct (writing w _).
Qed.

(** The upserted list is a list of records again. *)
Lemma upserted_records (code : string) (shares cost : float) (name : string)
    (holdings : list pyval) :
  Forall (fun item => is_Some (code_of item)) holdings ->
  Forall (fun item => is_Some (code_of item))
    (upserted code shares cost name holdings).
Proof.
  intros Hrecords. unfold upserted.
  destruct (update_existing_first code shares cost name _ Hrecords)
    as [[_ ->] | (i & d & Hi & Hd & _ & ->)].
  - apply Forall_app. split; [done |]. constructor; [| done]. by eexists.
  - apply Forall_insert; [done |]. rewrite code_of_rewritten. cbn. by rewrite Hd.
Qed.

(** Upserting twice with the same values is upserting once. *)
Lemma upserted_idempotent (code : string) (shares cost : float) (name : string)
    (holdings : list pyval) :
  Forall (fun item => is_Some (code_of item)) holdings ->
  upserted code shares cost name (upserted code shares cost name holdings)
  = upserted code shares cost name holdings.
Proof.
  intros Hrecords. unfold upserted at 2 3.
  destruct (update_existing_first code shares cost name _ Hrecords)
    as [[Hnone ->] | (i & d & Hi & Hd & Hfirst & ->)].
  - unfold upserted.
    set (fields := <["code" := VStr code]>
                     (<["name" := py_or (VStr name) (VStr ("基金" +:+ code))]>
                        (<["shares" := VFloat shares]>
                           (<["cost" := VFloat cost]> (∅ : gmap string pyval))))).
    assert (new_holding code shares cost name = VDict fields) as Hnew by done.
    rewrite (update_existing_at code shares cost name _ (length holdings) fields).
    + rewrite (rewritten_new_holding code shares cost name fields Hnew).
      rewrite list_insert_id; [done |]. rewrite Hnew. apply list_lookup_middle. done.
    + apply Forall_app. split; [done |]. constructor; [| done]. by eexists.
    + rewrite Hnew. by apply list_lookup_middle.
    + done.
    + intros j item Hj Hitem. rewrite lookup_app_l in Hitem by done.
      rewrite Forall_lookup in Hnone. by apply (Hnone j).
  - unfold upserted.
    rewrite (update_existing_at code shares cost name _ i
               (rewritten shares cost name d)).
    + by rewrite list_insert_insert_eq, rewritten_idempotent.
    + apply Forall_insert; [done |]. rewrite code_of_rewritten. cbn. by rewrite Hd.
    + apply list_lookup_insert_eq. by eapply lookup_lt_Some.
    + pose proof (code_of_rewritten shares cost name d) as E. cbn in E. by rewrite E.
    + intros j item Hj Hitem. rewrite list_lookup_insert_ne in Hitem by lia.
      by apply (Hfirst j).
Qed.

(** Removing a code that a list does not hold after upserting it gives the
    list back. *)
Lemma without_code_upserted (code : string) (shares cost : float) (name : string)
    (holdings : list pyval) :
  Forall (fun item => is_Some (code_of item)) holdings ->
  Forall (fun item => has_code code item = false) holdings ->
  without_code code (upserted code shares cost name holdings) = holdings.
Proof.
  intros Hrecords Hnone. unfold upserted, without_code.
  destruct (update_existing_first code shares cost name _ Hrecords)
    as [[_ ->] | (i & d & Hi & Hd & _ & _)].
  - rewrite List.filter_app, filter_no_code by done. cbn.
    unfold has_code. cbn. rewrite lookup_insert_eq. cbn. rewrite String.eqb_refl. cbn.
    apply app_nil_r.
  - rewrite Forall_lookup in Hnone. specialize (Hnone i _ Hi).
    apply (has_code_dict code) in Hd. congruence.
Qed.

(** A delete request with a code field, once the file is loaded, writes the
    list without the code. *)
Lemma delete_fund_accepted (data code_field : pyval) (w : world) (s : state) :
  dict_get data "code" (VStr "") = Ok code_field ->
  Forall (fun item => is_Some (code_of item)) (stored_holdings (config_file s)) ->
  delete_fund py data w s =
  match loaded (config_file s) with
  | Raise e => (Raise e, s)
  | Ok _ =>
      let kept := without_code (str_strip py (py_str py code_field))
                    (stored_holdings (config_file s)) in
      match writing w kept with
      | Written =>
          (Ok (success_body, 200),
           {| requests := requests s; config_file := Json (VList kept) |})
      | OpenFails => (Raise OSError, s)
      | DumpFails e => (Raise e, {| requests := requests s; config_file := truncated |})
      end
  end.
Proof.
  intros Hdata Hrecords.
  unfold delete_fund. rewrite bind_run, lift_run, Hdata. cbv zeta.
  rewrite bind_run, load_holdings_run.
  destruct (loaded (config_file s)) as [holdings | e] eqn:Hload; [| done].
  apply loaded_stored in Hload as ->.
  rewrite bind_run, lift_run, (other_codes_filter _ _ Hrecords).
  rewrite bind_run, save_holdings_run. unfold without_code.
  by destruct (writing w _).
Qed.

(** The file a delete request leaves when it answers success. *)
Lemma delete_fund_success (data code_field : pyval) (w : world) (s : state) :
  dict_get data "code" (VStr "") = Ok code_field ->
  Forall (fun item => is_Some (code_of item)) (stored_holdings (config_file s)) ->
  fst (delete_fund py data w s) = Ok (success_body, 200) ->
  let kept := without_code (str_strip py (py_str py code_field))
                (stored_holdings (config_file s)) in
  writing w kept = Written /\
  snd (delete_fund py data w s)
  = {| requests := requests s; config_file := Json (VList kept) |}.
Proof.
  intros Hdata Hrecords. rewrite (delete_fund_accepted _ _ w s Hdata Hrecords).
  destruct (loaded (config_file s)); [| done]. cbv zeta.
  by destruct (writing w _).
Qed.

Lemma without_code_records (code : string) (holdings : list pyval) :
  Forall (fun item => is_Some (code_of item)) holdings ->
  Forall (fun item => is_Some (code_of item)) (without_code code holdings).
Proof.
  intros Hrecords. unfold without_code. rewrite Forall_forall in *.
  intros item Hin%list_elem_of_In%List.filter_In. apply Hrecords.
  apply list_elem_of_In. tauto.
Qed.

Lemma without_code_none (code : string) (holdings : list pyval) :
  Forall (fun item => has_code code item = false) (without_code code holdings).
Proof.
  unfold without_code. rewrite Forall_forall.
  intros item Hin%list_elem_of_In%List.filter_In. destruct Hin as [_ Hin].
  by apply negb_true_iff.
Qed.

End HoldingsRoutes.

(** X12: [add_fund] answers with status 400 and leaves the state as it was
    when the code of the request is empty, when the shares are not above
    zero, or when the cost is not above zero. *)
Theorem add_fund_rejects (py : builtins) (data code_field : pyval) (shares cost : float)
    (name : string) (w : world) (s : state) :
  dict_get data "code" (VStr "") = Ok code_field ->
  dict_get data "shares" (VInt 0) ≫= py_float py = Ok shares ->
  dict_get data "cost" (VInt 0) ≫= py_float py = Ok cost ->
  dict_get data "name" (VStr "") ≫= strip_method py = Ok name ->
  str_strip py (py_str py code_field) = ""%string \/
  (shares <=? 0)%float = true \/ (cost <=? 0)%float = true ->
  exists message, add_fund py data w s = (Ok (error_body message, 400), s).
Proof.
  intros Hdata Hshares Hcost Hname Hbad.
  unfold add_fund. rewrite bind_run, lift_run, Hdata. cbv zeta.
  destruct (truthy (VStr (str_strip py (py_str py code_field)))) eqn:Hcode;
    cbn [negb]; [| by eexists].
  rewrite bind_run, lift_run, Hshares, bind_run, lift_run, Hcost.
  rewrite bind_run, lift_run, Hname.
  destruct (shares <=? 0)%float; [by eexists |].
  destruct (cost <=? 0)%float; [by eexists |].
  destruct Hbad as [Hempty | [? | ?]]; [| done ..].
  rewrite Hempty in Hcode. done.
Qed.

Lemma add_fund_rejects_witness :
  exists message,
    add_fund demo_builtins (add_request "000001" 0 1.25)
      (fixed_world 0 10 RequestFailed RequestFailed) (fresh two_holdings)
    = (Ok (error_body message, 400), fresh two_holdings).
Proof.
  apply (add_fund_rejects demo_builtins (add_request "000001" 0 1.25) (VStr "000001")
           0 1.25 "" (fixed_world 0 10 RequestFailed RequestFailed) (fresh two_holdings));
    try reflexivity.
  right. left. reflexivity.
Defined.



(** X14: after an accepted request on a file of records that answered
    success, the first stored record with the code of the request holds the
    shares and the cost of the request, and its name when the name given is
    not empty. *)
Theorem add_fund_lookup (py : builtins) (data : pyval) (code : string)
    (shares cost : float) (name : string) (w : world) (s : state) :
  accepted py data code shares cost name ->
  Forall (fun item => is_Some (code_of item)) (stored_holdings (config_file s)) ->
  fst (add_fund py data w s) = Ok (success_body, 200) ->
  exists (i : nat) (d : gmap string pyval),
    stored_holdings (config_file (snd (add_fund py data w s))) !! i = Some (VDict d) /\
    d !! "code" = Some (VStr code) /\
    d !! "shares" = Some (VFloat shares) /\
    d !! "cost" = Some (VFloat cost) /\
    (name <> ""%string -> d !! "name" = Some (VStr name)) /\
    (forall j item, (j < i)%nat ->
       stored_holdings (config_file (snd (add_fund py data w s))) !! j = Some item ->
       has_code code item = false).
Proof.
  intros Hacc Hrecords Hok.
  destruct (add_fund_success py _ _ _ _ _ w s Hacc Hrecords Hok) as [_ ->].
  cbn [snd config_file stored_holdings]. unfold upserted.
  destruct (update_existing_first code shares cost name _ Hrecords)
    as [[Hnone ->] | (i & d & Hi & Hd & Hfirst & ->)].
  - exists (length (stored_holdings (config_file s))). eexists.
    split; [by apply list_lookup_middle |]. split_and!; try by literal_lookup.
    + intros Hname. literal_lookup. unfold py_or, truthy.
      by apply String.eqb_neq in Hname as ->.
    + intros j item Hj Hitem. rewrite lookup_app_l in Hitem by done.
      rewrite Forall_lookup in Hnone. by apply (Hnone j).
  - exists i, (rewritten shares cost name d).
    destruct (rewritten_lookup shares cost name d) as (Hs & Hc & Hn & Ho).
    split; [apply list_lookup_insert_eq; by eapply lookup_lt_Some |].
    split_and!; try done.
    + by rewrite Ho.
    + intros Hname. rewrite Hn. by apply String.eqb_neq in Hname as ->.
    + intros j item Hj Hitem. rewrite list_lookup_insert_ne in Hitem by lia.
      by apply (Hfirst j).
Qed.

(** X15: an accepted request that answered success, sent again, writes the
    very list that is stored: when the disk takes that list again, the second
    request answers success and leaves the same file (it rewrites the record
    of the first with the same values). *)
Theorem add_fund_idempotent (py : builtins) (data : pyval) (code : string)
    (shares cost : float) (name : string) (w w' : world) (s : state) :
  accepted py data code shares cost name ->
  Forall (fun item => is_Some (code_of item)) (stored_holdings (config_file s)) ->
  fst (add_fund py data w s) = Ok (success_body, 200) ->
  writing w' (stored_holdings (config_file (snd (add_fund py data w s)))) = Written ->
  add_fund py data w' (snd (add_fund py data w s))
  = (Ok (success_body, 200), snd (add_fund py data w s)).
Proof.
  intros Hacc Hrecords Hok.
  destruct (add_fund_success py _ _ _ _ _ w s Hacc Hrecords Hok) as [_ ->].
  cbn [snd config_file stored_holdings]. intros Hwrite.
  rewrite (add_fund_accepted py _ _ _ _ _ w' _ Hacc).
  - cbn [requests config_file stored_holdings loaded]. cbv zeta.
    by rewrite (upserted_idempotent _ _ _ _ _ Hrecords), Hwrite.
  - cbn [config_file stored_holdings]. by apply upserted_records.
Qed.

(** X16: adding a code that no stored record has and then deleting that code
    gives back the holdings list as it was, when the add answered success
    and the delete can write the list. *)
Theorem add_then_delete (py : builtins) (data data' code_field' : pyval) (code : string)
    (shares cost : float) (name : string) (w w' : world) (s : state) :
  accepted py data code shares cost name ->
  dict_get data' "code" (VStr "") = Ok code_field' ->
  str_strip py (py_str py code_field') = code ->
  Forall (fun item => is_Some (code_of item)) (stored_holdings (config_file s)) ->
  Forall (fun item => has_code code item = false) (stored_holdings (config_file s)) ->
  fst (add_fund py data w s) = Ok (success_body, 200) ->
  writing w' (stored_holdings (config_file s)) = Written ->
  exists s',
    delete_fund py data' w' (snd (add_fund py data w s)) = (Ok (success_body, 200), s') /\
    stored_holdings (config_file s') = stored_holdings (config_file s).
Proof.
  intros Hacc Hdata' Hcode' Hrecords Hnone Hok Hwrite.
  destruct (add_fund_success py _ _ _ _ _ w s Hacc Hrecords Hok) as [_ ->].
  rewrite (delete_fund_accepted py data' code_field' w' _ Hdata').
  - cbn [requests config_file stored_holdings loaded]. cbv zeta.
    rewrite Hcode', (without_code_upserted _ _ _ _ _ Hrecords Hnone), Hwrite.
    by eexists.
  - cbn [config_file stored_holdings]. by apply upserted_records.
Qed.

(** X17: after a [delete_fund] that answered success no stored record has
    the code of the request; the same request sent again writes the very list
    that is stored, so that, when the disk takes that list again, it answers
    success and changes nothing. *)
Theorem delete_fund_idempotent (py : builtins) (data code_field : pyval) (w w' : world)
    (s : state) :
  dict_get data "code" (VStr "") = Ok code_field ->
  Forall (fun item => is_Some (code_of item)) (stored_holdings (config_file s)) ->
  fst (delete_fund py data w s) = Ok (success_body, 200) ->
  let s' := snd (delete_fund py data w s) in
  Forall (fun item => has_code (str_strip py (py_str py code_field)) item = false)
    (stored_holdings (config_file s')) /\
  (writing w' (stored_holdings (config_file s')) = Written ->
   delete_fund py data w' s' = (Ok (success_body, 200), s')).
Proof.
  intros Hdata Hrecords Hok s'. subst s'.
  destruct (delete_fund_success py data code_field w s Hdata Hrecords Hok) as [_ ->].
  cbn [snd config_file stored_holdings].
  split; [apply without_code_none |]. intros Hwrite.
  rewrite (delete_fund_accepted py data code_field w' _ Hdata).
  - cbn [requests config_file stored_holdings loaded]. cbv zeta.
    unfold without_code at 1 3.
    rewrite filter_no_code by apply without_code_none.
    by rewrite Hwrite.
  - cbn [config_file stored_holdings]. by apply without_code_records.
Qed.




Lemma prefix_drop (p t : string) :
  String.prefix p t = true -> t = p +:+ string_drop (String.length p) t.
Proof.
  revert t. induction p as [| c p IH]; intros t; [done |].
  destruct t as [| b t]; cbn [String.prefix]; [done |].
  destruct (ascii_dec c b) as [<- | ?]; [| done].
  intros Hp.
  change (String c t = String c (p +:+ string_drop (String.length p) t)).
  f_equal. by apply IH.
Qed.

Lemma lazy_group_sound (suf s g : string) :
  lazy_group suf s = Some g ->
  occurs newline g = false /\ exists rest, s = g +:+ suf +:+ rest.
Proof.
  revert g. induction s as [| a s IH]; intros g; cbn [lazy_group].
  - destruct (String.prefix suf "") eqn:Hp; [| done]. intros [= <-].
    split; [done |]. apply prefix_drop in Hp. eauto.
  - destruct (String.prefix suf (String a s)) eqn:Hp.
    + intros [= <-]. split; [done |]. apply prefix_drop in Hp. eauto.
    + destruct (Ascii.eqb a newline) eqn:En; [done |].
      destruct (lazy_group suf s) as [g' |]; [| done].
      intros [= <-]. destruct (IH g' eq_refl) as (Hn & rest & ->).
      split; [cbn; by rewrite En | by exists rest].
Qed.

(** X19: what [re.search] gives for the two patterns of the adapters is a
    real occurrence: the text holds the opening literal, then the group,
    then the closing literal, and the group has no newline. *)
Theorem re_search_sound (pre suf s g : string) :
  re_search pre suf s = Some g ->
  occurs newline g = false /\
  exists before rest, s = before +:+ pre +:+ g +:+ suf +:+ rest.
Proof.
  induction s as [| a s IH]; cbn [re_search].
  - destruct (String.prefix pre "") eqn:Hp; [| done].
    destruct (lazy_group suf _) as [g' |] eqn:Hg; [| done]. intros [= <-].
    apply lazy_group_sound in Hg as (Hn & rest & Hrest).
    split; [done |]. exists ""%string, rest.
    apply prefix_drop in Hp. rewrite Hp at 1. by rewrite Hrest.
  - destruct (String.prefix pre (String a s)) eqn:Hp.
    + destruct (lazy_group suf _) as [g' |] eqn:Hg.
      * intros [= <-]. apply lazy_group_sound in Hg as (Hn & rest & Hrest).
        split; [done |]. exists ""%string, rest.
        apply prefix_drop in Hp. rewrite Hp at 1. by rewrite Hrest.
      * intros Hs. destruct (IH Hs) as (Hn & before & rest & ->).
        split; [done |]. by exists (String a before), rest.
    + intros Hs. destruct (IH Hs) as (Hn & before & rest & ->).
      split; [done |]. by exists (String a before), rest.
Qed.

Lemma re_search_sound_witness :
  occurs newline "{a}" = false /\
  exists before rest,
    "x jsonpgz({a});jsonpgz(b);"%string
    = before +:+ "jsonpgz(" +:+ "{a}" +:+ ");" +:+ rest.
Proof.
  apply (re_search_sound "jsonpgz(" ");" "x jsonpgz({a});jsonpgz(b);" "{a}").
  reflexivity.
Defined.

Lemma get_best_data_choice_witness :
  let w := fixed_world 5 20 eastmoney_empty_object sina_record in
  exists remote,
    fst (get_best_data demo_builtins (VStr "000001") w (fresh NoFile)) = Ok remote /\
    remote = quote (VStr "sina") (VStr "X") 1.5 1.25 20 (VStr "2024-01-05").
Proof.
  intros w.
  destruct (get_best_data_choice demo_builtins (VStr "000001") w (fresh NoFile)
              (sent Eastmoney "000001" (fresh NoFile))
              (sent Sina "000001" (sent Eastmoney "000001" (fresh NoFile)))
              (quote (VStr "eastmoney") (VStr "基金000001") 0 0 0 (VStr ""))
              (quote (VStr "sina") (VStr "X") 1.5 1.25 20 (VStr "2024-01-05")))
    as (remote & Hrun & _ & _ & Hboth); [reflexivity | reflexivity |].
  exists remote. split; [exact Hrun |]. apply Hboth; discriminate.
Defined.

Lemma compute_fund_view_amounts_witness :
  exists view,
    compute_fund_view demo_builtins (holding_record "000001" "A" 100 1.5)
      (VDict (<["gsz" := VStr "1.25"]> ∅)) = Ok view /\
    exists shares cost gsz dwjz,
      getitem view "shares" = Ok (VFloat shares) /\
      getitem view "cost" = Ok (VFloat cost) /\
      getitem view "gsz" = Ok (VFloat gsz) /\
      getitem view "dwjz" = Ok (VFloat dwjz) /\
      getitem view "market_value" = Ok (VFloat (shares * gsz)) /\
      getitem view "day_profit" = Ok (VFloat ((gsz - dwjz) * shares)) /\
      getitem view "total_profit" = Ok (VFloat ((gsz - cost) * shares)) /\
      getitem view "code" = getitem (holding_record "000001" "A" 100 1.5) "code".
Proof.
  eexists. split; [reflexivity |].
  eapply (compute_fund_view_amounts demo_builtins (holding_record "000001" "A" 100 1.5)
            (VDict (<["gsz" := VStr "1.25"]> ∅))).
  reflexivity.
Defined.

Lemma compute_fund_view_display_witness :
  exists view,
    compute_fund_view demo_builtins (VDict (<["code" := VStr "000001"]> ∅))
      (quote (VStr "sina") (VStr "") 1.5 1.25 20 (VStr "")) = Ok view /\
    exists name update_time,
      getitem view "name" = Ok name /\ truthy name = true /\
      getitem view "update_time" = Ok update_time /\ truthy update_time = true.
Proof.
  eexists. split; [reflexivity |].
  eapply (compute_fund_view_display demo_builtins (VDict (<["code" := VStr "000001"]> ∅))
            (quote (VStr "sina") (VStr "") 1.5 1.25 20 (VStr ""))).
  reflexivity.
Defined.

Lemma get_valuations_views_witness :
  let w := fixed_world 0 20 RequestFailed sina_record in
  exists body s',
    get_valuations demo_builtins w (fresh two_holdings) = (Ok (body, 200), s') /\
    exists data,
      getitem body "data" = Ok (VList data) /\
      Forall2 (fun holding view =>
                 getitem view "code" = getitem holding "code" /\
                 (getitem view "source" = Ok (VStr "eastmoney") \/
                  getitem view "source" = Ok (VStr "sina") \/
                  getitem view "source" = Ok (VStr "offline")))
              (stored_holdings two_holdings) data.
Proof.
  intros w. do 2 eexists. split; [vm_compute; reflexivity |].
  eapply (get_valuations_views demo_builtins w (fresh two_holdings)).
  vm_compute. reflexivity.
Defined.

Lemma get_valuations_needs_codes_witness :
  raises (fst (get_valuations demo_builtins (fixed_world 0 20 RequestFailed sina_record)
                 (fresh broken_holdings))) = true.
Proof.
  apply (get_valuations_needs_codes demo_builtins
           (fixed_world 0 20 RequestFailed sina_record) (fresh broken_holdings)).
  right. left. reflexivity.
Defined.

Lemma add_request_accepted (code : string) :
  code <> ""%string ->
  accepted demo_builtins (add_request code 1.5 1.25) code 1.5 1.25 "".
Proof.
  intros Hcode. unfold accepted, add_request. cbn [dict_get].
  split; [eexists; split; [by literal_lookup | done] |].
  split; [done |]. by literal_lookup.
Qed.

Lemma add_fund_lookup_witness :
  exists (i : nat) (d : gmap string pyval),
    stored_holdings (config_file (snd
      (add_fund demo_builtins (add_request "000002" 1.5 1.25)
         (fixed_world 0 10 RequestFailed RequestFailed) (fresh two_holdings)))) !! i
    = Some (VDict d) /\
    d !! "code" = Some (VStr "000002") /\
    d !! "shares" = Some (VFloat 1.5) /\
    d !! "cost" = Some (VFloat 1.25).
Proof.
  destruct (add_fund_lookup demo_builtins (add_request "000002" 1.5 1.25) "000002"
              1.5 1.25 "" (fixed_world 0 10 RequestFailed RequestFailed)
              (fresh two_holdings))
    as (i & d & Hi & Hcode & Hshares & Hcost & _).
  - by apply add_request_accepted.
  - exact two_holdings_records.
  - reflexivity.
  - exists i, d. by split_and!.
Defined.

Lemma add_fund_idempotent_witness :
  let w := fixed_world 0 10 RequestFailed RequestFailed in
  let once := snd (add_fund demo_builtins (add_request "000003" 1.5 1.25) w
                     (fresh two_holdings)) in
  add_fund demo_builtins (add_request "000003" 1.5 1.25) w once
  = (Ok (success_body, 200), once).
Proof.
  intros w once.
  apply (add_fund_idempotent demo_builtins (add_request "000003" 1.5 1.25) "000003"
           1.5 1.25 "" w w (fresh two_holdings)).
  - by apply add_request_accepted.
  - exact two_holdings_records.
  - reflexivity.
  - reflexivity.
Defined.

Lemma add_then_delete_witness :
  let w := fixed_world 0 10 RequestFailed RequestFailed in
  exists s',
    delete_fund demo_builtins (delete_request "000003") w
      (snd (add_fund demo_builtins (add_request "000003" 1.5 1.25) w
              (fresh two_holdings)))
    = (Ok (success_body, 200), s') /\
    stored_holdings (config_file s') = stored_holdings two_holdings.
Proof.
  intros w.
  apply (add_then_delete demo_builtins (add_request "000003" 1.5 1.25)
           (delete_request "000003") (VStr "000003") "000003" 1.5 1.25 "" w w
           (fresh two_holdings)).
  - by apply add_request_accepted.
  - reflexivity.
  - reflexivity.
  - exact two_holdings_records.
  - repeat constructor.
  - reflexivity.
  - reflexivity.
Defined.

Lemma delete_fund_idempotent_witness :
  let w := fixed_world 0 10 RequestFailed RequestFailed in
  let s' := snd (delete_fund demo_builtins (delete_request "000001") w
                   (fresh two_holdings)) in
  Forall (fun item => has_code "000001" item = false) (stored_holdings (config_file s')) /\
  delete_fund demo_builtins (delete_request "000001") w s' = (Ok (success_body, 200), s').
Proof.
  intros w s'.
  destruct (delete_fund_idempotent demo_builtins (delete_request "000001")
              (VStr "000001") w w (fresh two_holdings)) as [Hnone Hagain].
  - reflexivity.
  - exact two_holdings_records.
  - reflexivity.
  - split; [exact Hnone |]. apply Hagain. reflexivity.
Defined.

(** X21: the valuation route answers, with status 200, whenever
    [load_holdings] returns (the file is missing, or reading it raises
    nothing but [OSError] or [json.JSONDecodeError]), every stored record is
    a dictionary with a code whose shares and cost convert to floats, and the
    first adapter does not raise. *)
Theorem get_valuations_answers (py : builtins) (w : world) (s : state) :
  raises (fst (load_holdings w s)) = false ->
  Forall (readable py) (stored_holdings (config_file s)) ->
  (forall code s0, raises (fst (fetch_from_eastmoney py code w s0)) = false) ->
  exists body s', get_valuations py w s = (Ok (body, 200), s').
Proof. exact (get_valuations_returns py w s). Qed.

Lemma get_valuations_answers_witness :
  exists body s',
    get_valuations demo_builtins (fixed_world 0 20 RequestFailed sina_record)
      (fresh two_holdings) = (Ok (body, 200), s').
Proof.
  apply (get_valuations_answers demo_builtins
           (fixed_world 0 20 RequestFailed sina_record) (fresh two_holdings)).
  - reflexivity.
  - repeat constructor; do 4 eexists; by split_and!.
  - intros code s0. by rewrite fetch_from_eastmoney_unavailable.
Defined.
